(** * GNS3 Manager: a shallow embedding of [gns3_manager.py]

    The console application keeps a JSON configuration document, lets the
    operator pick a version out of a list, writes the choice back to the
    configuration file, renders [docker-compose.yml] from a template and
    launches docker commands.

    Modelling conventions.
    - A Python [str] is a [string]; its characters stand for the code points
      below 256.  Text files hold such strings (encoding and decoding are
      left out), and a path is an opaque key of the file map.  Opening a
      file that exists and writing a file always succeed.
    - A JSON document is a tree without floating-point numbers; a Python
      [dict] is an association list in insertion order, since [json.dump]
      writes the entries in that order.  The decoder refuses the texts that
      have no counterpart here: floats, and escapes of code points above
      255.
    - A method of [GNS3Manager] is a function from the state (the object's
      fields and the outside world: files, terminal, launched processes) to
      a result and a new state.  [input()] reads the next event of the
      terminal; messages printed are recorded in order, each with the
      values it interpolates rather than the formatted text.  A command
      launched twice ends the same way, and leaves the files alone.
    - The interpreter's optional cap on the length of decimal literals
      accepted by [int], and its recursion limit, are left out. *)

From Stdlib Require Import ZArith Ascii String List Lia.
From stdpp Require Import base option list strings gmap pretty.

Set Warnings "-register-all".

Local Open Scope string_scope.
Local Open Scope Z_scope.
Local Open Scope list_scope.

(** ** Python string primitives *)

Module PyStr.

Definition code (c : ascii) : Z := Z.of_N (N_of_ascii c).

(** [str.isspace] on one character (code points below 256). *)
Definition is_space (c : ascii) : bool :=
  let n := code c in
  ((9 <=? n) && (n <=? 13)) || ((28 <=? n) && (n <=? 32))
  || (n =? 133) || (n =? 160).

Fixpoint lstrip (s : string) : string :=
  match s with
  | String c s' => if is_space c then lstrip s' else s
  | EmptyString => EmptyString
  end.

Fixpoint rstrip (s : string) : string :=
  match s with
  | String c s' =>
      match rstrip s' with
      | EmptyString => if is_space c then EmptyString else String c EmptyString
      | r => String c r
      end
  | EmptyString => EmptyString
  end.

(** [s.strip()] *)
Definition strip (s : string) : string := rstrip (lstrip s).

(** [str.lower] on one character: A-Z and the accented capitals of
    Latin-1 (all of 0xC0-0xDE but the multiplication sign) move up by 32. *)
Definition lower_char (c : ascii) : ascii :=
  let n := code c in
  if ((65 <=? n) && (n <=? 90))
     || ((192 <=? n) && (n <=? 222) && negb (n =? 215))
  then ascii_of_N (Z.to_N (n + 32)) else c.

Fixpoint lower (s : string) : string :=
  match s with
  | String c s' => String (lower_char c) (lower s')
  | EmptyString => EmptyString
  end.

Definition is_digit (c : ascii) : bool :=
  (48 <=? code c) && (code c <=? 57).

Definition digit_val (c : ascii) : Z := code c - 48.

(** Blank characters skipped by [int] around the literal: the ASCII ones,
    and the two blanks above 127, which [int] first turns into a space. *)
Definition int_space (c : ascii) : bool :=
  let n := code c in
  ((9 <=? n) && (n <=? 13)) || (n =? 32) || (n =? 133) || (n =? 160).

Fixpoint all_int_space (s : string) : bool :=
  match s with
  | String c s' => int_space c && all_int_space s'
  | EmptyString => true
  end.

Fixpoint skip_int_space (s : string) : string :=
  match s with
  | String c s' => if int_space c then skip_int_space s' else s
  | EmptyString => EmptyString
  end.

(** Digits of a base-10 literal, single underscores allowed between two
    digits, then blanks up to the end. *)
Fixpoint scan_digits (acc : Z) (s : string) : option Z :=
  match s with
  | EmptyString => Some acc
  | String c s' =>
      if is_digit c then scan_digits (10 * acc + digit_val c) s'
      else if Ascii.eqb c "_" then
        match s' with
        | String d s'' =>
            if is_digit d then scan_digits (10 * acc + digit_val d) s''
            else None
        | EmptyString => None
        end
      else if all_int_space s then Some acc else None
  end.

Definition int_unsigned (s : string) : option Z :=
  match s with
  | String c _ => if is_digit c then scan_digits 0 s else None
  | EmptyString => None
  end.

(** [int(s)]: [None] stands for [ValueError]. *)
Definition int (s : string) : option Z :=
  match skip_int_space s with
  | String "-" s' => Z.opp <$> int_unsigned s'
  | String "+" s' => int_unsigned s'
  | s' => int_unsigned s'
  end.

(** [str(n)] for an integer. *)
Definition str_of_int (n : Z) : string := pretty n.

(** [strip_prefix p s] is what follows [p] when [s] starts with [p]. *)
Fixpoint strip_prefix (p s : string) : option string :=
  match p with
  | EmptyString => Some s
  | String a p' =>
      match s with
      | String b s' => if Ascii.eqb a b then strip_prefix p' s' else None
      | EmptyString => None
      end
  end.

Fixpoint all_chars (p : ascii -> bool) (s : string) : bool :=
  match s with
  | String c s' => p c && all_chars p s'
  | EmptyString => true
  end.

(** [s.replace(old, new)]: the occurrences of [old] are found from left to
    right and do not overlap; the text put in is not searched again.  The
    first argument counts the characters still to visit. *)
Fixpoint replace_from (fuel : nat) (old new s : string) : string :=
  match fuel with
  | O => s
  | S fuel' =>
      match s with
      | EmptyString =>
          match old with EmptyString => new | _ => EmptyString end
      | String c s' =>
          match old with
          | EmptyString =>
              new +:+ String c (replace_from fuel' old new s')
          | _ =>
              match strip_prefix old s with
              | Some rest => new +:+ replace_from fuel' old new rest
              | None => String c (replace_from fuel' old new s')
              end
          end
      end
  end.

Definition replace (s old new : string) : string :=
  replace_from (S (String.length s)) old new s.

End PyStr.

(** ** JSON documents, [json.dump] and [json.load] *)

Module Json.
Import PyStr.

(** What [json.load] builds, floats apart: [None], [bool], [int], [str],
    [list], and [dict] with [str] keys in insertion order. *)
Inductive json : Type :=
| JNull
| JBool (b : bool)
| JInt (n : Z)
| JStr (s : string)
| JArr (items : list json)
| JObj (members : list (string * json)).

(** *** Python [dict] on association lists *)

(** [d.get(k)] *)
Fixpoint dict_get (k : string) (d : list (string * json)) : option json :=
  match d with
  | [] => None
  | (k', v) :: d' => if String.eqb k k' then Some v else dict_get k d'
  end.

(** [d[k] = v]: an existing key keeps its place, a new one goes last. *)
Fixpoint dict_set (k : string) (v : json) (d : list (string * json))
  : list (string * json) :=
  match d with
  | [] => [(k, v)]
  | (k', v') :: d' =>
      if String.eqb k k' then (k', v) :: d' else (k', v') :: dict_set k v d'
  end.

(** [dict(pairs)] *)
Definition dict_of_pairs (ps : list (string * json)) : list (string * json) :=
  fold_left (fun d kv => dict_set kv.1 kv.2 d) ps [].

(** *** Encoder: [json.dump(obj, f, indent=2)] *)

Definition dquote : ascii := "034"%char.
Definition backslash : ascii := "092"%char.

Definition hex_digit (n : Z) : ascii :=
  if n <? 10 then ascii_of_N (Z.to_N (48 + n))
  else ascii_of_N (Z.to_N (87 + n)).

(** One character of [encode_basestring_ascii]: the short escapes, then
    [\u00xx] for whatever is not printable ASCII. *)
Definition escape_char (c : ascii) : string :=
  let n := code c in
  if n =? 34 then String backslash (String dquote EmptyString)
  else if n =? 92 then String backslash (String backslash EmptyString)
  else if n =? 10 then String backslash "n"
  else if n =? 13 then String backslash "r"
  else if n =? 9 then String backslash "t"
  else if n =? 8 then String backslash "b"
  else if n =? 12 then String backslash "f"
  else if (32 <=? n) && (n <=? 126) then String c EmptyString
  else String backslash
         (String "u" (String "0" (String "0"
            (String (hex_digit (n / 16))
               (String (hex_digit (n mod 16)) EmptyString))))).

Fixpoint escape (s : string) : string :=
  match s with
  | String c s' => escape_char c +:+ escape s'
  | EmptyString => EmptyString
  end.

Definition encode_string (s : string) : string :=
  String dquote (escape s +:+ String dquote EmptyString).

Fixpoint spaces (n : nat) : string :=
  match n with
  | O => EmptyString
  | S n' => String " " (String " " (spaces n'))
  end.

(** A line break followed by the indentation of nesting depth [level]. *)
Definition newline_indent (level : nat) : string :=
  String "010" (spaces level).

Section Joined.
Context {A : Type} (f : A -> string) (sep : string).

Fixpoint joined (l : list A) : string :=
  match l with
  | [] => EmptyString
  | [x] => f x
  | x :: l' => f x +:+ sep +:+ joined l'
  end.
End Joined.

Fixpoint dump (level : nat) (v : json) : string :=
  match v with
  | JNull => "null"
  | JBool true => "true"
  | JBool false => "false"
  | JInt n => str_of_int n
  | JStr s => encode_string s
  | JArr [] => "[]"
  | JArr items =>
      "[" +:+ newline_indent (S level)
        +:+ joined (dump (S level)) ("," +:+ newline_indent (S level)) items
        +:+ newline_indent level +:+ "]"
  | JObj [] => "{}"
  | JObj members =>
      "{" +:+ newline_indent (S level)
        +:+ joined (fun kv => encode_string kv.1 +:+ ": " +:+ dump (S level) kv.2)
              ("," +:+ newline_indent (S level)) members
        +:+ newline_indent level +:+ "}"
  end.

Definition dumps (v : json) : string := dump 0 v.

(** *** Decoder: [json.load(f)] *)

Definition is_ws (c : ascii) : bool :=
  let n := code c in (n =? 32) || (n =? 9) || (n =? 10) || (n =? 13).

Fixpoint skip_ws (s : string) : string :=
  match s with
  | String c s' => if is_ws c then skip_ws s' else s
  | EmptyString => EmptyString
  end.

Definition hex_val (c : ascii) : option Z :=
  let n := code c in
  if (48 <=? n) && (n <=? 57) then Some (n - 48)
  else if (97 <=? n) && (n <=? 102) then Some (n - 87)
  else if (65 <=? n) && (n <=? 70) then Some (n - 55)
  else None.

Definition hex4 (a b c d : ascii) : option Z :=
  x1 ← hex_val a; x2 ← hex_val b; x3 ← hex_val c; x4 ← hex_val d;
  Some (((x1 * 16 + x2) * 16 + x3) * 16 + x4).

(** The character a one-letter escape stands for. *)
Definition unescape (e : ascii) : option ascii :=
  let n := code e in
  if n =? 34 then Some dquote
  else if n =? 92 then Some backslash
  else if n =? 47 then Some "/"%char
  else if n =? 98 then Some "008"%char
  else if n =? 102 then Some "012"%char
  else if n =? 110 then Some "010"%char
  else if n =? 114 then Some "013"%char
  else if n =? 116 then Some "009"%char
  else None.

(** [scanstring], entered after the opening quote.  An escape that names
    a code point above 255 has no counterpart here and is refused. *)
Fixpoint scanstring (s : string) : option (string * string) :=
  match s with
  | EmptyString => None
  | String c s' =>
      if Ascii.eqb c dquote then Some (EmptyString, s')
      else if Ascii.eqb c backslash then
        match s' with
        | String e s'' =>
            if Ascii.eqb e "u" then
              match s'' with
              | String h1 (String h2 (String h3 (String h4 s3))) =>
                  n ← hex4 h1 h2 h3 h4;
                  if n <? 256 then
                    r ← scanstring s3;
                    Some (String (ascii_of_N (Z.to_N n)) r.1, r.2)
                  else None
              | _ => None
              end
            else
              ch ← unescape e;
              r ← scanstring s'';
              Some (String ch r.1, r.2)
        | EmptyString => None
        end
      else if code c <? 32 then None
      else r ← scanstring s'; Some (String c r.1, r.2)
  end.

Fixpoint scan_int_digits (acc : Z) (s : string) : Z * string :=
  match s with
  | String c s' =>
      if is_digit c then scan_int_digits (10 * acc + digit_val c) s'
      else (acc, s)
  | EmptyString => (acc, s)
  end.

(** Whether a fraction or an exponent follows: the number is then a
    float, which this model leaves out. *)
Definition float_tail (s : string) : bool :=
  match s with
  | String "." (String d _) => is_digit d
  | String c (String d r) =>
      if Ascii.eqb c "e" || Ascii.eqb c "E" then
        if Ascii.eqb d "+" || Ascii.eqb d "-" then
          match r with String d' _ => is_digit d' | EmptyString => false end
        else is_digit d
      else false
  | _ => false
  end.

(** The integer part of a number: an optional minus sign, then either a
    single zero or a non-zero digit followed by any digits. *)
Definition scan_unsigned (s : string) : option (Z * string) :=
  match s with
  | String c s' =>
      if Ascii.eqb c "0" then Some (0, s')
      else if is_digit c then Some (scan_int_digits (digit_val c) s')
      else None
  | EmptyString => None
  end.

Definition scan_number (s : string) : option (json * string) :=
  r ← match strip_prefix "-" s with
      | Some s' => r ← scan_unsigned s'; Some (- r.1, r.2)
      | None => scan_unsigned s
      end;
  if float_tail r.2 then None else Some (JInt r.1, r.2).

(** [scan_once] with [JSONArray] and [JSONObject]; [fuel] bounds the
    number of nested calls. *)
Fixpoint scan_once (fuel : nat) (s : string) : option (json * string) :=
  match fuel with
  | O => None
  | S fuel' =>
      match s with
      | EmptyString => None
      | String c s' =>
          if Ascii.eqb c dquote then
            r ← scanstring s'; Some (JStr r.1, r.2)
          else if Ascii.eqb c "{" then
            match skip_ws s' with
            | String c1 s1 =>
                if Ascii.eqb c1 "}" then Some (JObj [], s1)
                else if Ascii.eqb c1 dquote then
                  r ← scan_members fuel' s1;
                  Some (JObj (dict_of_pairs r.1), r.2)
                else None
            | EmptyString => None
            end
          else if Ascii.eqb c "[" then
            match skip_ws s' with
            | String c1 s1 =>
                if Ascii.eqb c1 "]" then Some (JArr [], s1)
                else
                  r ← scan_items fuel' (String c1 s1);
                  Some (JArr r.1, r.2)
            | EmptyString => None
            end
          else if Ascii.eqb c "n" then
            r ← strip_prefix "null" s; Some (JNull, r)
          else if Ascii.eqb c "t" then
            r ← strip_prefix "true" s; Some (JBool true, r)
          else if Ascii.eqb c "f" then
            r ← strip_prefix "false" s; Some (JBool false, r)
          else scan_number s
      end
  end
with scan_items (fuel : nat) (s : string) : option (list json * string) :=
  match fuel with
  | O => None
  | S fuel' =>
      r ← scan_once fuel' s;
      match skip_ws r.2 with
      | String c s1 =>
          if Ascii.eqb c "]" then Some ([r.1], s1)
          else if Ascii.eqb c "," then
            rs ← scan_items fuel' (skip_ws s1);
            Some (r.1 :: rs.1, rs.2)
          else None
      | EmptyString => None
      end
  end
with scan_members (fuel : nat) (s : string)
  : option (list (string * json) * string) :=
  match fuel with
  | O => None
  | S fuel' =>
      k ← scanstring s;
      match skip_ws k.2 with
      | String c0 s1 =>
          if Ascii.eqb c0 ":" then
            r ← scan_once fuel' (skip_ws s1);
            match skip_ws r.2 with
            | String c s2 =>
                if Ascii.eqb c "}" then Some ([(k.1, r.1)], s2)
                else if Ascii.eqb c "," then
                  match skip_ws s2 with
                  | String c3 s3 =>
                      if Ascii.eqb c3 dquote then
                        rs ← scan_members fuel' s3;
                        Some ((k.1, r.1) :: rs.1, rs.2)
                      else None
                  | EmptyString => None
                  end
                else None
            | EmptyString => None
            end
          else None
      | EmptyString => None
      end
  end.

(** [json.loads]: one value, blanks allowed around it, nothing after.
    [None] stands for [JSONDecodeError] and for the texts this model
    leaves out (floats, code points above 255). *)
Definition loads (s : string) : option json :=
  r ← scan_once (S (String.length s)) (skip_ws s);
  match skip_ws r.2 with
  | EmptyString => Some r.1
  | _ => None
  end.

End Json.

(** ** The application *)

Module GNS3Manager.
Import PyStr Json.

(** *** Outcomes, terminal and processes *)

Inductive exn : Type :=
| SystemExit (status : Z)
| JSONDecodeError
| AttributeError
| TypeError
| KeyError
| EOFError
| KeyboardInterrupt
| IndexError
| CalledProcessError
| FileNotFoundError.

(** [SystemExit] and [KeyboardInterrupt] are not caught by
    [except Exception]. *)
Definition is_exception (e : exn) : bool :=
  match e with
  | SystemExit _ | KeyboardInterrupt => false
  | _ => true
  end.

(** How a call ends.  [Blocked]: [input()] waits for a line the recorded
    session does not have.  [Unmodelled]: the run leaves the model (the
    text of a list or of a dict is asked for). *)
Inductive result (A : Type) : Type :=
| Ret (a : A)
| Raise (e : exn)
| Blocked
| Unmodelled.
Arguments Ret {A} a.
Arguments Raise {A} e.
Arguments Blocked {A}.
Arguments Unmodelled {A}.

(** What [input()] meets on the terminal. *)
Inductive input_event : Type :=
| Line (text : string)
| Interrupt
| EndOfInput.

(** How a launched command ends. *)
Inductive process_outcome : Type :=
| Exited (status : Z)
| ProgramMissing
| Interrupted.

(** The messages of the program, in the order of the source. *)
Inductive message : Type :=
| MConfigNotFound (path : string)
| MBanner
| MCurrentDefaults
| MDefault (label : string) (v : json)
| MOptions
| MNoVersions (component : string)
| MAvailable (component : string)
| MItem (i : Z) (v : json)
| MAskVersion (component : string) (n : Z)
| MSelected (v : json)
| MInvalidChoice (n : Z)
| MInvalidInput
| MCancelled
| MUpdated (component : string) (v : json)
| MTemplateNotFound (path : string)
| MGenerated (path qemu gns3 : string)
| MBuilding (image qemu gns3 : string)
| MBuilt (image : string)
| MBuildFailed
| MDockerMissing
| MComposeNotFound (path : string)
| MUnknownAction (action : string)
| MStarted
| MStopped
| MCommandFailed
| MComposeMissing
| MLogsStopped
| MAskChoice
| MGoodbye
| MInvalidMenuChoice
| MError (e : exn).

(** *** State *)

(** The fields of a [GNS3Manager] object. *)
Record manager : Type := Manager {
  config_path : string;
  config : json;
  compose_file : string;
  template_file : string
}.

(** The world around it: text files by path, what the terminal will
    send, what was printed, how each command would end, and the commands
    launched so far. *)
Record world : Type := World {
  files : gmap string string;
  stdin : list input_event;
  stdout : list message;
  launch : list string -> process_outcome;
  launched : list (list string)
}.

Definition state : Type := manager * world.

Definition M (A : Type) : Type := state -> result A * state.

Definition ret {A} (a : A) : M A := fun st => (Ret a, st).

Definition bind {A B} (m : M A) (k : A -> M B) : M B :=
  fun st =>
    match m st with
    | (Ret a, st') => k a st'
    | (Raise e, st') => (Raise e, st')
    | (Blocked, st') => (Blocked, st')
    | (Unmodelled, st') => (Unmodelled, st')
    end.

#[global] Instance M_ret : MRet M := @ret.
#[global] Instance M_bind : MBind M := fun A B k m => bind m k.

Definition raise {A} (e : exn) : M A := fun st => (Raise e, st).

Definition lift {A} (r : result A) : M A := fun st => (r, st).

(** [try: m  except <handled>: h] *)
Definition try_except {A} (m : M A) (h : exn -> option (M A)) : M A :=
  fun st =>
    match m st with
    | (Raise e, st') =>
        match h e with
        | Some handler => handler st'
        | None => (Raise e, st')
        end
    | r => r
    end.

Definition set_config (c : json) (m : manager) : manager :=
  Manager (config_path m) c (compose_file m) (template_file m).

Definition set_files (f : gmap string string) (w : world) : world :=
  World f (stdin w) (stdout w) (launch w) (launched w).

Definition set_stdin (i : list input_event) (w : world) : world :=
  World (files w) i (stdout w) (launch w) (launched w).

Definition add_stdout (ms : list message) (w : world) : world :=
  World (files w) (stdin w) (stdout w ++ ms) (launch w) (launched w).

Definition add_launched (cmd : list string) (w : world) : world :=
  World (files w) (stdin w) (stdout w) (launch w) (launched w ++ [cmd]).

Definition self : M manager := fun st => (Ret st.1, st).

(** [print(...)] *)
Definition print (m : message) : M unit :=
  fun st => (Ret tt, (st.1, add_stdout [m] st.2)).

(** [path.exists()] *)
Definition exists_file (path : string) : M bool :=
  fun st => (Ret (bool_decide (is_Some (files st.2 !! path))), st).

(** [open(path, 'r').read()] on a file that exists. *)
Definition read_file (path : string) : M string :=
  fun st =>
    match files st.2 !! path with
    | Some text => (Ret text, st)
    | None => (Raise FileNotFoundError, st)
    end.

(** [open(path, 'w').write(text)] *)
Definition write_file (path text : string) : M unit :=
  fun st => (Ret tt, (st.1, set_files (<[path := text]> (files st.2)) st.2)).

(** [input(prompt)]: the prompt is shown, then the next event is taken.
    The end of input stays where it is. *)
Definition input (prompt : message) : M string :=
  fun st =>
    let w := add_stdout [prompt] st.2 in
    match stdin w with
    | [] => (Blocked, (st.1, w))
    | Line text :: rest => (Ret text, (st.1, set_stdin rest w))
    | Interrupt :: rest => (Raise KeyboardInterrupt, (st.1, set_stdin rest w))
    | EndOfInput :: _ => (Raise EOFError, (st.1, w))
    end.

(** [subprocess.run(cmd, check=check)] *)
Definition subprocess_run (cmd : list string) (check : bool) : M unit :=
  fun st =>
    let st' := (st.1, add_launched cmd st.2) in
    match launch st.2 cmd with
    | Exited status =>
        if check && negb (status =? 0) then (Raise CalledProcessError, st')
        else (Ret tt, st')
    | ProgramMissing => (Raise FileNotFoundError, st')
    | Interrupted => (Raise KeyboardInterrupt, st')
    end.

(** *** Python values *)

(** [d.get(k, dflt)] *)
Definition py_get (d : json) (k : string) (dflt : json) : result json :=
  match d with
  | JObj ms => Ret (default dflt (dict_get k ms))
  | _ => Raise AttributeError
  end.

(** Truth value of an object. *)
Definition truthy (v : json) : bool :=
  match v with
  | JNull => false
  | JBool b => b
  | JInt n => negb (n =? 0)
  | JStr s => negb (String.eqb s EmptyString)
  | JArr l => match l with [] => false | _ => true end
  | JObj ms => match ms with [] => false | _ => true end
  end.

Fixpoint chars (s : string) : list json :=
  match s with
  | String c s' => JStr (String c EmptyString) :: chars s'
  | EmptyString => []
  end.

(** The elements met when iterating over a value. *)
Definition py_iter (v : json) : result (list json) :=
  match v with
  | JArr l => Ret l
  | JStr s => Ret (chars s)
  | JObj ms => Ret (JStr <$> ms.*1)
  | _ => Raise TypeError
  end.

(** [len(v)] *)
Definition py_len (v : json) : result Z :=
  match v with
  | JArr l => Ret (Z.of_nat (length l))
  | JStr s => Ret (Z.of_nat (String.length s))
  | JObj ms => Ret (Z.of_nat (length ms))
  | _ => Raise TypeError
  end.

(** [v[idx]] for an integer [0 <= idx]; the keys of a [dict] loaded from
    JSON are strings, none equals an integer. *)
Definition py_getitem (v : json) (idx : Z) : result json :=
  match v with
  | JArr l => match l !! Z.to_nat idx with
              | Some x => Ret x
              | None => Raise IndexError
              end
  | JStr s => match chars s !! Z.to_nat idx with
              | Some x => Ret x
              | None => Raise IndexError
              end
  | JObj _ => Raise KeyError
  | _ => Raise TypeError
  end.

(** The text of a value inside an f-string. *)
Definition py_format (v : json) : result string :=
  match v with
  | JStr s => Ret s
  | JInt n => Ret (str_of_int n)
  | JBool true => Ret "True"
  | JBool false => Ret "False"
  | JNull => Ret "None"
  | JArr _ | JObj _ => Unmodelled
  end.

(** The second argument of [str.replace] has to be a [str]. *)
Definition as_str (v : json) : result string :=
  match v with
  | JStr s => Ret s
  | _ => Raise TypeError
  end.

(** *** The methods of [GNS3Manager] *)

Definition load_config : M json :=
  m ← self;
  present ← exists_file (config_path m);
  if negb present then
    print (MConfigNotFound (config_path m));;
    raise (SystemExit 1)
  else
    text ← read_file (config_path m);
    match loads text with
    | Some doc => mret doc
    | None => raise JSONDecodeError
    end.

(** [GNS3Manager(path)]: [config_path] is set, the configuration is
    loaded into [config], then the two fixed paths are set. *)
Definition init (path : string) (w : world) : result manager * world :=
  let blank := Manager path JNull EmptyString EmptyString in
  match load_config (blank, w) with
  | (Ret doc, st) =>
      (Ret (Manager path doc "docker-compose.yml"
              "docker-compose.template.yml"), st.2)
  | (Raise e, st) => (Raise e, st.2)
  | (Blocked, st) => (Blocked, st.2)
  | (Unmodelled, st) => (Unmodelled, st.2)
  end.

Definition save_config : M unit :=
  m ← self;
  write_file (config_path m) (dumps (config m)).

Definition get_defaults : M json :=
  m ← self;
  lift (py_get (config m) "defaults" (JObj [])).

Definition get_available_versions : M json :=
  m ← self;
  lift (py_get (config m) "available_versions" (JObj [])).

Definition display_menu : M unit :=
  print MBanner;;
  defaults ← get_defaults;
  print MCurrentDefaults;;
  gns3 ← lift (py_get defaults "gns3_server_version" (JStr "N/A"));
  print (MDefault "GNS3 Server" gns3);;
  qemu ← lift (py_get defaults "qemu_version" (JStr "N/A"));
  print (MDefault "QEMU" qemu);;
  print MOptions.

(** The numbered lines [print(f"  {i}. {version}")]. *)
Fixpoint numbered (i : Z) (l : list json) : list message :=
  match l with
  | [] => []
  | v :: l' => MItem i v :: numbered (i + 1) l'
  end.

(** The [while True] loop of [select_version], one turn per terminal
    event ([input] is unfolded in it, so that the recursion follows the
    events): the outcome, the events left and the messages shown. *)
Fixpoint select_loop (component : string) (versions : json) (n : Z)
    (events : list input_event)
  : result (option json) * list input_event * list message :=
  let ask := MAskVersion component n in
  match events with
  | [] => (Blocked, [], [ask])
  | EndOfInput :: _ => (Raise EOFError, events, [ask])
  | Interrupt :: rest => (Ret None, rest, [ask; MCancelled])
  | Line text :: rest =>
      let choice := strip text in
      if String.eqb (lower choice) "q" then (Ret None, rest, [ask])
      else
        match int choice with
        | None =>
            let r := select_loop component versions n rest in
            (r.1.1, r.1.2, ask :: MInvalidInput :: r.2)
        | Some i =>
            let idx := i - 1 in
            if (0 <=? idx) && (idx <? n) then
              match py_getitem versions idx with
              | Ret selected =>
                  (Ret (Some selected), rest, [ask; MSelected selected])
              | Raise e => (Raise e, rest, [ask])
              | Blocked => (Blocked, rest, [ask])
              | Unmodelled => (Unmodelled, rest, [ask])
              end
            else
              let r := select_loop component versions n rest in
              (r.1.1, r.1.2, ask :: MInvalidChoice n :: r.2)
        end
  end.

(** The loop run on the terminal of the current state. *)
Definition select_interactively (component : string) (versions : json)
    (n : Z) : M (option json) :=
  fun st =>
    let r := select_loop component versions n (stdin st.2) in
    (r.1.1, (st.1, set_stdin r.1.2 (add_stdout r.2 st.2))).

Definition print_all (ms : list message) : M unit :=
  fun st => (Ret tt, (st.1, add_stdout ms st.2)).

Definition select_version (component : string) : M (option json) :=
  available ← get_available_versions;
  versions ← lift (py_get available component (JArr []));
  if negb (truthy versions) then
    print (MNoVersions component);;
    mret None
  else
    print (MAvailable component);;
    items ← lift (py_iter versions);
    print_all (numbered 1 items);;
    n ← lift (py_len versions);
    select_interactively component versions n.

(** [self.config["defaults"][key] = version], with [defaults] created
    first when the key is missing. *)
Definition store_default (key : string) (version : json) (cfg : json)
  : result json :=
  match cfg with
  | JObj ms =>
      let ms1 := match dict_get "defaults" ms with
                 | None => dict_set "defaults" (JObj []) ms
                 | Some _ => ms
                 end in
      match dict_get "defaults" ms1 with
      | Some (JObj ds) =>
          Ret (JObj (dict_set "defaults" (JObj (dict_set key version ds)) ms1))
      | Some _ => Raise TypeError
      | None => Raise KeyError
      end
  | _ => Raise TypeError
  end.

Definition assign_config (cfg : json) : M unit :=
  fun st => (Ret tt, (set_config cfg st.1, st.2)).

(** Both branches of the conditional that computes [key] in the source
    build the same text. *)
Definition update_default (component : string) (version : json) : M unit :=
  m ← self;
  let key := component +:+ "_version" in
  cfg ← lift (store_default key version (config m));
  assign_config cfg;;
  save_config;;
  print (MUpdated component version).

Definition generate_compose_file : M bool :=
  defaults ← get_defaults;
  qemu_version ← lift (py_get defaults "qemu_version" (JStr "4.2.1"));
  gns3_version ← lift (py_get defaults "gns3_server_version" (JStr "2.2.40"));
  m ← self;
  present ← exists_file (template_file m);
  if negb present then
    print (MTemplateNotFound (template_file m));;
    mret false
  else
    content ← read_file (template_file m);
    qemu ← lift (as_str qemu_version);
    let content := replace content "${QEMU_VERSION}" qemu in
    gns3 ← lift (as_str gns3_version);
    let content := replace content "${GNS3_SERVER_VERSION}" gns3 in
    write_file (compose_file m) content;;
    print (MGenerated (compose_file m) qemu gns3);;
    mret true.

Definition build_image : M bool :=
  defaults ← get_defaults;
  qemu_version ← lift (py_get defaults "qemu_version" (JStr "4.2.1"));
  gns3_version ← lift (py_get defaults "gns3_server_version" (JStr "2.2.40"));
  qemu ← lift (py_format qemu_version);
  gns3 ← lift (py_format gns3_version);
  let image_name := "gns3-qemu:" +:+ qemu +:+ "-server-" +:+ gns3 in
  print (MBuilding image_name qemu gns3);;
  let cmd := ["docker"; "build";
              "--build-arg"; "QEMU_VERSION=" +:+ qemu;
              "--build-arg"; "GNS3_SERVER_VERSION=" +:+ gns3;
              "-t"; image_name;
              "."] in
  try_except
    (subprocess_run cmd true;;
     print (MBuilt image_name);;
     mret true)
    (fun e =>
       match e with
       | CalledProcessError => Some (print MBuildFailed;; mret false)
       | FileNotFoundError => Some (print MDockerMissing;; mret false)
       | _ => None
       end).

Definition actions (action : string) : option (list string) :=
  if String.eqb action "up" then Some ["docker-compose"; "up"; "-d"]
  else if String.eqb action "down" then Some ["docker-compose"; "down"]
  else if String.eqb action "logs" then Some ["docker-compose"; "logs"; "-f"]
  else None.

Definition docker_compose (action : string) : M bool :=
  m ← self;
  present ← exists_file (compose_file m);
  if negb present then
    print (MComposeNotFound (compose_file m));;
    mret false
  else
    match actions action with
    | None => print (MUnknownAction action);; mret false
    | Some cmd =>
        try_except
          ((if String.eqb action "logs" then subprocess_run cmd false
            else
              subprocess_run cmd true;;
              if String.eqb action "up" then print MStarted
              else if String.eqb action "down" then print MStopped
              else mret tt);;
           mret true)
          (fun e =>
             match e with
             | CalledProcessError => Some (print MCommandFailed;; mret false)
             | FileNotFoundError => Some (print MComposeMissing;; mret false)
             | KeyboardInterrupt =>
                 Some ((if String.eqb action "logs" then print MLogsStopped
                        else mret tt);;
                       mret true)
             | _ => None
             end)
    end.

(** One turn of the [while True] loop of [run]: [true] when the loop goes
    on, [false] after a [break]. *)
Definition run_iteration : M bool :=
  display_menu;;
  try_except
    (text ← input MAskChoice;
     let choice := strip text in
     if String.eqb choice "1" then
       version ← select_version "gns3_server";
       match version with
       | Some v =>
           if truthy v then update_default "gns3_server" v;; mret true
           else mret true
       | None => mret true
       end
     else if String.eqb choice "2" then
       version ← select_version "qemu";
       match version with
       | Some v =>
           if truthy v then update_default "qemu" v;; mret true
           else mret true
       | None => mret true
       end
     else if String.eqb choice "3" then generate_compose_file;; mret true
     else if String.eqb choice "4" then build_image;; mret true
     else if String.eqb choice "5" then docker_compose "up";; mret true
     else if String.eqb choice "6" then docker_compose "down";; mret true
     else if String.eqb choice "7" then docker_compose "logs";; mret true
     else if String.eqb choice "8" then print MGoodbye;; mret false
     else print MInvalidMenuChoice;; mret true)
    (fun e =>
       match e with
       | KeyboardInterrupt => Some (print MGoodbye;; mret false)
       | _ => if is_exception e then Some (print (MError e);; mret true)
              else None
       end).

End GNS3Manager.

(** ** Vocabulary of the statements *)

Module Spec.
Import PyStr Json GNS3Manager.

(** Every [dict] of the document has distinct keys, as a Python [dict]
    does by construction. *)
Fixpoint well_formed (v : json) : bool :=
  match v with
  | JArr l => forallb well_formed l
  | JObj ms =>
      bool_decide (NoDup ms.*1) && forallb (fun kv => well_formed kv.2) ms
  | _ => true
  end.

(** A bound on the nested calls [scan_once] needs for a document. *)
Fixpoint weight (v : json) : nat :=
  match v with
  | JArr l => S (fold_right (fun x n => S (weight x + n)) O l)
  | JObj ms => S (fold_right (fun kv n => S (weight kv.2 + n)) O ms)
  | _ => 1
  end.

(** What may follow a value inside a dumped document: nothing, a comma
    or a line break. *)
Definition delimited (rest : string) : bool :=
  match rest with
  | EmptyString => true
  | String c _ => (code c =? 44) || (code c =? 10)
  end.

(** The decoder reads the dumped text of [v] back, at any nesting depth
    and before any delimiter, with [weight v] nested calls. *)
Definition parses_back (v : json) : Prop :=
  forall (level : nat) (rest : string) (fuel : nat),
    delimited rest = true ->
    (weight v <= fuel)%nat ->
    scan_once fuel (dump level v +:+ rest) = Some (v, rest).

(** The configuration lists [vs] as the versions of [component]. *)
Definition offers (m : manager) (component : string) (vs : list json)
  : Prop :=
  exists ms av,
    config m = JObj ms /\
    dict_get "available_versions" ms = Some (JObj av) /\
    dict_get component av = Some (JArr vs).

(** The [defaults] mapping of the configuration is [ds]; a configuration
    without the field has the empty mapping. *)
Definition has_defaults (m : manager) (ds : list (string * json)) : Prop :=
  py_get (config m) "defaults" (JObj []) = Ret (JObj ds).

(** The version kept under [key], or [fallback] when there is none. *)
Definition version_or (fallback key : string) (ds : list (string * json))
  : json :=
  default (JStr fallback) (dict_get key ds).

(** A line that neither cancels nor names one of the [n] versions. *)
Definition rejected (n : Z) (text : string) : bool :=
  negb (String.eqb (lower (strip text)) "q")
  && match int (strip text) with
     | None => true
     | Some k => negb ((1 <=? k) && (k <=? n))
     end.

(** What the selector shows for the rejected lines [texts]. *)
Fixpoint reprompts (component : string) (n : Z) (texts : list string)
  : list message :=
  match texts with
  | [] => []
  | text :: texts' =>
      MAskVersion component n
        :: (match int (strip text) with
            | None => MInvalidInput
            | Some _ => MInvalidChoice n
            end)
        :: reprompts component n texts'
  end.

(** The world once the terminal events but [rest] are consumed and [msgs]
    are shown; files and processes are those of [w]. *)
Definition after_session (w : world) (rest : list input_event)
    (msgs : list message) : world :=
  World (files w) rest (stdout w ++ msgs) (launch w) (launched w).

(** A placeholder token of a template. *)
Definition placeholder (name : string) : string :=
  "${" +:+ name +:+ "}".

Fixpoint has_char (c : ascii) (s : string) : bool :=
  match s with
  | String c' s' => Ascii.eqb c c' || has_char c s'
  | EmptyString => false
  end.

(** The name of a placeholder other than the two known ones. *)
Definition other_name (name : string) : bool :=
  negb (has_char "$" name) && negb (has_char "}" name)
  && negb (String.eqb name "QEMU_VERSION")
  && negb (String.eqb name "GNS3_SERVER_VERSION").

(** The text written by [generate_compose_file]: the two replacements, one
    after the other. *)
Definition rendered (template qemu gns3 : string) : string :=
  replace (replace template "${QEMU_VERSION}" qemu)
    "${GNS3_SERVER_VERSION}" gns3.

(** The world once [generate_compose_file] has written [text]. *)
Definition after_render (m : manager) (w : world) (text qemu gns3 : string)
  : world :=
  World (<[compose_file m := text]> (files w)) (stdin w)
    (stdout w ++ [MGenerated (compose_file m) qemu gns3])
    (launch w) (launched w).

(** Simultaneous substitution, as the specification words it: the
    template is read once from left to right, each of the two tokens met
    is replaced by its value, and no value is read again. *)
Fixpoint substitute_from (fuel : nat) (qemu gns3 s : string) : string :=
  match fuel with
  | O => s
  | S fuel' =>
      match strip_prefix "${QEMU_VERSION}" s with
      | Some rest => qemu +:+ substitute_from fuel' qemu gns3 rest
      | None =>
          match strip_prefix "${GNS3_SERVER_VERSION}" s with
          | Some rest => gns3 +:+ substitute_from fuel' qemu gns3 rest
          | None =>
              match s with
              | String c s' => String c (substitute_from fuel' qemu gns3 s')
              | EmptyString => EmptyString
              end
          end
      end
  end.

Definition substitute_simultaneously (template qemu gns3 : string)
  : string :=
  substitute_from (S (String.length template)) qemu gns3 template.

(** A QEMU value that cannot take part in a server token: not empty, no
    dollar sign, and a first character foreign to the token. *)
Definition inert (qemu : string) : bool :=
  match qemu with
  | String c _ =>
      negb (has_char "$" qemu) && negb (has_char c "{GNS3_SERVER_VERSION}")
  | EmptyString => false
  end.

End Spec.

(** ** A sample installation *)

Module Sample.
Import PyStr Json GNS3Manager.

Definition sample_config : json :=
  JObj [("defaults",
         JObj [("gns3_server_version", JStr "2.2.40");
               ("qemu_version", JStr "4.2.1")]);
        ("available_versions",
         JObj [("gns3_server", JArr [JStr "2.2.40"; JStr "2.2.42"]);
               ("qemu", JArr [JStr "a"; JStr "b"; JStr "c"])])].

Definition sample_manager : manager :=
  Manager "config.json" sample_config
    "docker-compose.yml" "docker-compose.template.yml".

Definition sample_files : gmap string string :=
  {[ "config.json" := dumps sample_config;
     "docker-compose.template.yml" :=
       "image: gns3-qemu:${QEMU_VERSION}-server-${GNS3_SERVER_VERSION} # ${TAG}" ]}.

(** A world where every command launched ends well. *)
Definition sample_world (events : list input_event) : world :=
  World sample_files events [] (fun _ => Exited 0) [].

(** An installation with the given [defaults] mapping and template. *)
Definition installed_manager (defaults : list (string * json)) : manager :=
  Manager "config.json" (JObj [("defaults", JObj defaults)])
    "docker-compose.yml" "docker-compose.template.yml".

Definition installed_world (defaults : list (string * json))
    (template : string) : world :=
  World {[ "config.json" := dumps (JObj [("defaults", JObj defaults)]);
           "docker-compose.template.yml" := template ]}
    [] [] (fun _ => Exited 0) [].

Definition installation (defaults : list (string * json))
    (template : string) : state :=
  (installed_manager defaults, installed_world defaults template).

End Sample.

(** ** Facts about the string primitives *)

Module PyStrFacts.
Import PyStr.

#[local] Arguments String.append !_ _ / : simpl nomatch.

(** Case analysis over the 256 characters. *)
Ltac each_char c :=
  destruct c as [[] [] [] [] [] [] [] []].

Lemma append_nil_r (s : string) : s +:+ "" = s.
Proof. induction s as [|c s IH]; simpl; [done | by rewrite IH]. Qed.

Lemma append_assoc (a b c : string) : (a +:+ b) +:+ c = a +:+ (b +:+ c).
Proof. induction a as [|x a IH]; simpl; [done | by rewrite IH]. Qed.

Lemma length_append (a b : string) :
  String.length (a +:+ b) = (String.length a + String.length b)%nat.
Proof. induction a as [|x a IH]; simpl; [done | by rewrite IH]. Qed.

(** *** [strip] *)

Lemma rstrip_fixed (s : string) :
  all_chars (fun c => negb (is_space c)) s = true -> rstrip s = s.
Proof.
  induction s as [|c s IH]; simpl; [done |].
  intros [Hc Hs]%andb_prop. rewrite (IH Hs).
  destruct s; [| done]. by destruct (is_space c).
Qed.

Lemma rstrip_idem (s : string) : rstrip (rstrip s) = rstrip s.
Proof.
  induction s as [|c s IH]; simpl; [done |].
  destruct (rstrip s) as [|d r] eqn:E.
  - destruct (is_space c) eqn:Ec; simpl; [done | by rewrite Ec].
  - simpl in *. rewrite IH. done.
Qed.

Lemma rstrip_head (c : ascii) (s : string) :
  is_space c = false -> exists r, rstrip (String c s) = String c r.
Proof.
  intros Hc. simpl. destruct (rstrip s); rewrite ?Hc; eauto.
Qed.

Lemma lstrip_head (s : string) :
  match lstrip s with
  | String c _ => is_space c = false
  | EmptyString => True
  end.
Proof.
  induction s as [|c s IH]; simpl; [done |].
  destruct (is_space c) eqn:Ec; [done | by simpl].
Qed.

Lemma strip_idem (s : string) : strip (strip s) = strip s.
Proof.
  unfold strip. pose proof (lstrip_head s) as H.
  destruct (lstrip s) as [|c t]; [done |].
  destruct (rstrip_head c t H) as [r Hr]. rewrite Hr.
  simpl lstrip. rewrite H, <- Hr. apply rstrip_idem.
Qed.

Lemma strip_fixed (s : string) :
  all_chars (fun c => negb (is_space c)) s = true -> strip s = s.
Proof.
  intros H. unfold strip.
  destruct s as [|c s]; [done |]. simpl in H. apply andb_prop in H as [Hc Hs].
  simpl lstrip. destruct (is_space c) eqn:Ec; [done |].
  apply rstrip_fixed. simpl. by rewrite Ec, Hs.
Qed.

(** *** [lower] *)

Lemma lower_is_q (s : string) : lower s = "q" <-> s = "q" \/ s = "Q".
Proof.
  split.
  - destruct s as [|c [|d s]]; simpl; try discriminate.
    intros [= H]. each_char c; vm_compute in H; try discriminate; auto.
  - by intros [-> | ->].
Qed.

(** *** [int] and [str] on integers *)

Lemma pretty_N_char_digit (x : N) :
  (x < 10)%N ->
  is_digit (pretty_N_char x) = true /\ digit_val (pretty_N_char x) = Z.of_N x.
Proof.
  intros H.
  assert (x = 0 \/ x = 1 \/ x = 2 \/ x = 3 \/ x = 4 \/ x = 5 \/ x = 6
          \/ x = 7 \/ x = 8 \/ x = 9)%N as Hx by lia.
  repeat destruct Hx as [-> | Hx]; try subst x; by vm_compute.
Qed.
Lemma scan_digits_go (x : N) (s : string) :
  scan_digits 0 (pretty_N_go x s) = scan_digits (Z.of_N x) s.
Proof.
  revert s. induction (N.lt_wf_0 x) as [x _ IH]; intros s.
  destruct (N.eq_dec x 0%N) as [-> | Hx]; [by rewrite pretty_N_go_0 |].
  rewrite pretty_N_go_step by lia.
  rewrite IH by (apply N.div_lt; lia).
  destruct (pretty_N_char_digit (x `mod` 10)%N) as [Hd Hv];
    [by apply N.mod_lt |].
  simpl scan_digits. rewrite Hd, Hv. f_equal.
  pose proof (N.div_mod x 10%N). lia.
Qed.

Lemma pretty_N_go_digits (x : N) (s : string) :
  all_chars is_digit s = true -> all_chars is_digit (pretty_N_go x s) = true.
Proof.
  revert s. induction (N.lt_wf_0 x) as [x _ IH]; intros s Hs.
  destruct (N.eq_dec x 0%N) as [-> | Hx]; [by rewrite pretty_N_go_0 |].
  rewrite pretty_N_go_step by lia.
  apply IH; [apply N.div_lt; lia |].
  destruct (pretty_N_char_digit (x `mod` 10)%N) as [Hd _];
    [by apply N.mod_lt |].
  simpl. by rewrite Hd, Hs.
Qed.

Lemma pretty_N_go_head (x : N) (s : string) :
  (0 < x)%N ->
  exists c r, pretty_N_go x s = String c r /\ is_digit c = true.
Proof.
  revert s. induction (N.lt_wf_0 x) as [x _ IH]; intros s Hx.
  rewrite pretty_N_go_step by lia.
  destruct (N.eq_dec (x `div` 10)%N 0%N) as [E | E].
  - rewrite E, pretty_N_go_0.
    destruct (pretty_N_char_digit (x `mod` 10)%N) as [Hd _];
      [by apply N.mod_lt | eauto].
  - apply IH; [apply N.div_lt; lia | by apply N.neq_0_lt_0].
Qed.

(** The decimal text of a natural number: digits only, at least one. *)
Lemma pretty_N_text (x : N) :
  exists c r, pretty x = String c r /\ is_digit c = true
              /\ all_chars is_digit (pretty x) = true
              /\ scan_digits 0 (pretty x) = Some (Z.of_N x).
Proof.
  unfold pretty, pretty_N. case_decide as Hx.
  - subst x. exists "0"%char, "". by vm_compute.
  - destruct (pretty_N_go_head x "") as (c & r & E & Hc); [lia |].
    exists c, r. split; [done |]. split; [done |]. split.
    + by apply pretty_N_go_digits.
    + by rewrite scan_digits_go.
Qed.

Lemma digit_not_blank (c : ascii) :
  is_digit c = true ->
  is_space c = false /\ int_space c = false /\ lower_char c = c
  /\ c <> "-"%char /\ c <> "+"%char /\ c <> "q"%char /\ c <> "Q"%char.
Proof.
  each_char c; vm_compute; intros H; try discriminate H;
    repeat split; discriminate.
Qed.

Lemma int_unsigned_pretty (x : N) : int_unsigned (pretty x) = Some (Z.of_N x).
Proof.
  destruct (pretty_N_text x) as (c & r & E & Hc & _ & Hs).
  unfold int_unsigned. rewrite E in *. by rewrite Hc.
Qed.

Lemma int_digits_first (c : ascii) (r : string) :
  is_digit c = true -> int (String c r) = int_unsigned (String c r).
Proof.
  intros Hc. unfold int. simpl skip_int_space.
  destruct (digit_not_blank c Hc) as (_ & -> & _ & Hm & Hp & _).
  each_char c; try done.
Qed.

(** [int(str(k)) == k] *)
Lemma int_str_of_int (k : Z) : int (str_of_int k) = Some k.
Proof.
  unfold str_of_int, pretty, pretty_Z. destruct k as [|p|p].
  - by vm_compute.
  - change (pretty p) with (pretty (N.pos p)).
    destruct (pretty_N_text (N.pos p)) as (c & r & E & Hc & _).
    rewrite E, (int_digits_first c r Hc), <- E. apply int_unsigned_pretty.
  - change (pretty p) with (pretty (N.pos p)).
    unfold int. simpl. by rewrite int_unsigned_pretty.
Qed.

Lemma all_chars_impl (p q : ascii -> bool) (s : string) :
  (forall c, p c = true -> q c = true) ->
  all_chars p s = true -> all_chars q s = true.
Proof.
  intros Hpq. induction s as [|c s IH]; simpl; [done |].
  intros [Hc Hs]%andb_prop. by rewrite (Hpq c Hc), IH.
Qed.

(** The decimal text of an integer has no blank to strip and is not the
    cancel input. *)
Lemma strip_str_of_int (k : Z) : strip (str_of_int k) = str_of_int k.
Proof.
  apply strip_fixed.
  assert (forall x : N,
    all_chars (fun c => negb (is_space c)) (pretty x) = true) as HN.
  { intros x. destruct (pretty_N_text x) as (_ & _ & _ & _ & Hd & _).
    revert Hd. apply all_chars_impl. intros c Hc.
    by destruct (digit_not_blank c Hc) as (-> & _). }
  unfold str_of_int, pretty, pretty_Z. destruct k as [|p|p].
  - done.
  - apply (HN (N.pos p)).
  - simpl. apply (HN (N.pos p)).
Qed.

Lemma lower_str_of_int (k : Z) : lower (str_of_int k) <> "q".
Proof.
  intros [H | H]%lower_is_q; revert H;
    unfold str_of_int, pretty, pretty_Z; destruct k as [|p|p]; try done;
    change (pretty p) with (pretty (N.pos p));
    destruct (pretty_N_text (N.pos p)) as (c & r & E & Hc & _);
    rewrite E; intros [= -> _]; by vm_compute in Hc.
Qed.

End PyStrFacts.

Module SelectFacts.
Import PyStr Json GNS3Manager Spec PyStrFacts.

Lemma add_stdout_add_stdout (a b : list message) (w : world) :
  add_stdout b (add_stdout a w) = add_stdout (a ++ b) w.
Proof. unfold add_stdout; simpl. by rewrite <- app_assoc. Qed.

Lemma select_loop_cancel component versions n text rest :
  lower (strip text) = "q" ->
  select_loop component versions n (Line text :: rest)
  = (Ret None, rest, [MAskVersion component n]).
Proof. intros H. simpl. by rewrite H. Qed.

Lemma select_loop_interrupt component versions n rest :
  select_loop component versions n (Interrupt :: rest)
  = (Ret None, rest, [MAskVersion component n; MCancelled]).
Proof. done. Qed.

Lemma select_loop_rejected component versions n pre events :
  forallb (rejected n) pre = true ->
  select_loop component versions n ((Line <$> pre) ++ events)
  = let r := select_loop component versions n events in
    (r.1.1, r.1.2, reprompts component n pre ++ r.2).
Proof.
  induction pre as [|text pre IH]; intros H.
  - simpl. by destruct (select_loop _ _ _ _) as [[??]?].
  - simpl in H. apply andb_prop in H as [Hr Hpre].
    unfold rejected in Hr. apply andb_prop in Hr as [Hq Hk].
    apply negb_true_iff in Hq.
    change ((Line <$> text :: pre) ++ events)
      with (Line text :: ((Line <$> pre) ++ events)).
    cbn [select_loop reprompts]. rewrite Hq.
    destruct (int (strip text)) as [k|].
    + replace ((0 <=? k - 1) && (k - 1 <? n)) with false by lia.
      rewrite (IH Hpre). done.
    + rewrite (IH Hpre). done.
Qed.

Lemma select_loop_accept component vs text k rest :
  lower (strip text) <> "q" ->
  int (strip text) = Some k ->
  1 <= k <= Z.of_nat (length vs) ->
  exists v, vs !! Z.to_nat (k - 1) = Some v /\
    select_loop component (JArr vs) (Z.of_nat (length vs)) (Line text :: rest)
    = (Ret (Some v), rest,
       [MAskVersion component (Z.of_nat (length vs)); MSelected v]).
Proof.
  intros Hq Hk Hr.
  destruct (lookup_lt_is_Some_2 vs (Z.to_nat (k - 1))) as [v Hv]; [lia |].
  exists v. split; [done |].
  cbn [select_loop]. apply String.eqb_neq in Hq. rewrite Hq, Hk.
  replace ((0 <=? k - 1) && (k - 1 <? Z.of_nat (length vs))) with true by lia.
  simpl. by rewrite Hv.
Qed.

(** [select_version] when the configuration lists versions: the header,
    the numbered list, then the loop on the terminal. *)
Lemma select_version_offered component m w vs :
  offers m component vs -> vs <> [] ->
  select_version component (m, w)
  = let r := select_loop component (JArr vs) (Z.of_nat (length vs)) (stdin w) in
    (r.1.1,
     (m, after_session w r.1.2 (MAvailable component :: numbered 1 vs ++ r.2))).
Proof.
  intros (ms & av & Hc & Hav & Hvs) Hne.
  unfold select_version, get_available_versions, mbind, M_bind, bind, self,
    lift, print, print_all, select_interactively; simpl.
  rewrite Hc; simpl. rewrite Hav; simpl. rewrite Hvs; simpl.
  destruct vs as [|v0 vs]; [done |]. simpl negb. cbv iota.
  unfold after_session, add_stdout, set_stdin; simpl.
  by rewrite <- !app_assoc.
Qed.

End SelectFacts.

(** ** Facts about the methods *)

Module MethodFacts.
Import PyStr Json GNS3Manager Spec PyStrFacts SelectFacts.

(** Unfolds the plumbing of the state monad. *)
Ltac run_M :=
  unfold mbind, M_bind, bind, mret, M_ret, ret, lift, self, raise, print,
    print_all, exists_file, read_file, write_file, assign_config,
    try_except; simpl.

Lemma has_defaults_get m ds w :
  has_defaults m ds -> get_defaults (m, w) = (Ret (JObj ds), (m, w)).
Proof.
  intros H. unfold get_defaults. run_M. unfold has_defaults in H.
  by rewrite H.
Qed.

Lemma py_get_version ds key fallback :
  py_get (JObj ds) key (JStr fallback) = Ret (version_or fallback key ds).
Proof. done. Qed.

(** [generate_compose_file] on a configuration whose two versions are
    strings, with the template in place. *)
Lemma generate_compose_file_renders m w ds template qemu gns3 :
  has_defaults m ds ->
  files w !! template_file m = Some template ->
  version_or "4.2.1" "qemu_version" ds = JStr qemu ->
  version_or "2.2.40" "gns3_server_version" ds = JStr gns3 ->
  generate_compose_file (m, w)
  = (Ret true, (m, after_render m w (rendered template qemu gns3) qemu gns3)).
Proof.
  intros Hd Ht Hq Hg. unfold generate_compose_file.
  unfold mbind at 1, M_bind at 1, bind at 1.
  rewrite (has_defaults_get m ds w Hd).
  rewrite !py_get_version, Hq, Hg.
  run_M. rewrite Ht. simpl. run_M. rewrite Ht. simpl.
  reflexivity.
Qed.

(** [build_image] on a configuration whose two versions are strings: the
    command is launched once, and its outcome decides the result. *)
Lemma build_image_runs m w ds qemu gns3 :
  has_defaults m ds ->
  version_or "4.2.1" "qemu_version" ds = JStr qemu ->
  version_or "2.2.40" "gns3_server_version" ds = JStr gns3 ->
  let tag := "gns3-qemu:" +:+ qemu +:+ "-server-" +:+ gns3 in
  let cmd := ["docker"; "build";
              "--build-arg"; "QEMU_VERSION=" +:+ qemu;
              "--build-arg"; "GNS3_SERVER_VERSION=" +:+ gns3;
              "-t"; tag;
              "."] in
  let w1 := add_launched cmd (add_stdout [MBuilding tag qemu gns3] w) in
  build_image (m, w)
  = match launch w cmd with
    | Exited status =>
        if negb (status =? 0)
        then (Ret false, (m, add_stdout [MBuildFailed] w1))
        else (Ret true, (m, add_stdout [MBuilt tag] w1))
    | ProgramMissing => (Ret false, (m, add_stdout [MDockerMissing] w1))
    | Interrupted => (Raise KeyboardInterrupt, (m, w1))
    end.
Proof.
  intros Hd Hq Hg tag cmd w1. unfold build_image.
  unfold mbind at 1, M_bind at 1, bind at 1.
  rewrite (has_defaults_get m ds w Hd).
  rewrite !py_get_version, Hq, Hg.
  run_M. unfold subprocess_run; simpl. fold tag. fold cmd. fold w1.
  destruct (launch w cmd) as [status| |]; simpl; try done.
  by destruct (negb (status =? 0)).
Qed.

(** [select_version] neither touches the object nor the files, and what
    was printed before does not influence it. *)
Lemma select_version_keeps component st :
  (select_version component st).2.1 = st.1
  /\ files (select_version component st).2.2 = files st.2.
Proof.
  destruct st as [m w].
  unfold select_version, get_available_versions, select_interactively.
  run_M.
  destruct (py_get (config m) _ _) as [av| | |]; simpl; try done.
  destruct (py_get av _ _) as [versions| | |]; simpl; try done.
  destruct (truthy versions); simpl; try done.
  destruct (py_iter versions); simpl; try done.
  destruct (py_len versions); simpl; done.
Qed.

Lemma select_version_result_stdout component m w msgs :
  (select_version component (m, add_stdout msgs w)).1
  = (select_version component (m, w)).1.
Proof.
  unfold select_version, get_available_versions, select_interactively.
  run_M.
  destruct (py_get (config m) _ _) as [av| | |]; simpl; try done.
  destruct (py_get av _ _) as [versions| | |]; simpl; try done.
  destruct (truthy versions); simpl; try done.
  destruct (py_iter versions); simpl; try done.
  destruct (py_len versions); simpl; done.
Qed.

(** [display_menu] only prints. *)
Lemma display_menu_prints m w :
  exists r msgs, display_menu (m, w) = (r, (m, add_stdout msgs w)).
Proof.
  unfold display_menu, get_defaults. run_M.
  destruct (py_get (config m) _ _) as [d| | |]; simpl;
    [| by eexists _, _ ..].
  destruct (py_get d "gns3_server_version" _) as [g| | |]; simpl;
    rewrite ?add_stdout_add_stdout; [| by eexists _, _ ..].
  destruct (py_get d "qemu_version" _) as [q| | |]; simpl;
    rewrite ?add_stdout_add_stdout; by eexists _, _.
Qed.

(** The turn of [run] in which the operator asks for a selection that
    ends without one. *)
Lemma run_iteration_no_selection m w text rest component :
  stdin w = Line text :: rest ->
  (strip text = "1" /\ component = "gns3_server")
  \/ (strip text = "2" /\ component = "qemu") ->
  (select_version component (m, set_stdin rest w)).1 = Ret None ->
  (run_iteration (m, w)).2.1 = m
  /\ files (run_iteration (m, w)).2.2 = files w.
Proof.
  intros Hin Hchoice Hsel.
  cut (exists r st, run_iteration (m, w) = (r, st)
                    /\ st.1 = m /\ files st.2 = files w).
  { by intros (r & st & -> & ? & ?). }
  unfold run_iteration.
  unfold mbind at 1, M_bind at 1, bind at 1.
  destruct (display_menu_prints m w) as (r & msgs & ->).
  destruct r as [[]| | |]; [| by eexists _, _ ..].
  unfold try_except, input.
  unfold mbind at 1, M_bind at 1, bind at 1. simpl. rewrite Hin.
  remember (set_stdin rest (add_stdout [MAskChoice] (add_stdout msgs w)))
    as w1 eqn:Ew1.
  assert ((select_version component (m, w1)).1 = Ret None) as Hsel1.
  { rewrite <- Hsel, Ew1.
    change (set_stdin rest (add_stdout [MAskChoice] (add_stdout msgs w)))
      with (add_stdout [MAskChoice] (add_stdout msgs (set_stdin rest w))).
    by rewrite !select_version_result_stdout. }
  destruct (select_version_keeps component (m, w1)) as [Hm Hf].
  destruct Hchoice as [[-> ->] | [-> ->]];
    change (String.eqb "1" "1") with true;
    change (String.eqb "2" "1") with false;
    change (String.eqb "2" "2") with true;
    cbv iota; unfold mbind, M_bind, bind; cbv beta;
    destruct (select_version _ (m, w1)) as [res st1];
    simpl in Hsel1, Hm, Hf; subst res; simpl;
    eexists _, _; (split; [reflexivity |]); by rewrite Hm, Hf, Ew1.
Qed.

End MethodFacts.

(** ** Facts about [replace] *)

Module ReplaceFacts.
Import PyStr Json GNS3Manager Spec PyStrFacts.

#[local] Arguments String.append !_ _ / : simpl nomatch.

Lemma strip_prefix_Some (p s r : string) :
  strip_prefix p s = Some r -> s = p +:+ r.
Proof.
  revert s. induction p as [|a p IH]; intros s; simpl.
  - by intros [= ->].
  - destruct s as [|b s]; [done |].
    destruct (Ascii.eqb_spec a b) as [-> | _]; [| done].
    intros H. by rewrite (IH _ H).
Qed.

Lemma strip_prefix_app (p r : string) : strip_prefix p (p +:+ r) = Some r.
Proof.
  induction p as [|a p IH]; simpl; [done |]. by rewrite Ascii.eqb_refl.
Qed.

Lemma strip_prefix_app_l (p s r x : string) :
  strip_prefix p s = Some r -> strip_prefix p (s +:+ x) = Some (r +:+ x).
Proof.
  intros ->%strip_prefix_Some. by rewrite append_assoc, strip_prefix_app.
Qed.

Lemma strip_prefix_shorter (p s r : string) :
  p <> "" -> strip_prefix p s = Some r ->
  (String.length r < String.length s)%nat.
Proof.
  intros Hp ->%strip_prefix_Some. rewrite length_append.
  destruct p; [done |]. simpl. lia.
Qed.

Lemma strip_prefix_cons (a b : ascii) (p s : string) :
  strip_prefix (String a p) (String b s)
  = if Ascii.eqb a b then strip_prefix p s else None.
Proof. done. Qed.

Lemma strip_prefix_first (a c : ascii) (p s : string) :
  a <> c -> strip_prefix (String a p) (String c s) = None.
Proof. intros H. simpl. by destruct (Ascii.eqb_spec a c). Qed.

Lemma replace_from_step (f : nat) (o c : ascii) (old new s : string) :
  replace_from (S f) (String o old) new (String c s)
  = match strip_prefix (String o old) (String c s) with
    | Some rest => new +:+ replace_from f (String o old) new rest
    | None => String c (replace_from f (String o old) new s)
    end.
Proof. done. Qed.

(** With enough fuel the result does not depend on the fuel. *)
Lemma replace_from_enough (old new : string) :
  old <> "" ->
  forall f1 f2 s,
    (String.length s < f1)%nat -> (String.length s < f2)%nat ->
    replace_from f1 old new s = replace_from f2 old new s.
Proof.
  intros Hold. destruct old as [|o old]; [done |].
  induction f1 as [|f1 IH]; intros f2 s H1 H2; [lia |].
  destruct f2 as [|f2]; [lia |].
  destruct s as [|c s]; [done |].
  rewrite !replace_from_step.
  destruct (strip_prefix (String o old) (String c s)) as [rest|] eqn:E.
  - apply strip_prefix_shorter in E; [| done]. simpl in *.
    f_equal. apply IH; lia.
  - simpl in *. f_equal. apply IH; lia.
Qed.

Lemma replace_nil (old new : string) : old <> "" -> replace "" old new = "".
Proof. by destruct old. Qed.

Lemma replace_hit (s old new rest : string) :
  old <> "" -> strip_prefix old s = Some rest ->
  replace s old new = new +:+ replace rest old new.
Proof.
  intros Hold E. unfold replace.
  pose proof (strip_prefix_shorter _ _ _ Hold E) as Hlen.
  destruct s as [|c s]; [simpl in Hlen; lia |].
  destruct old as [|o old]; [done |].
  simpl String.length. rewrite replace_from_step, E. f_equal.
  apply replace_from_enough; simpl in *; [done | lia | lia].
Qed.

Lemma replace_miss (c : ascii) (s old new : string) :
  old <> "" -> strip_prefix old (String c s) = None ->
  replace (String c s) old new = String c (replace s old new).
Proof.
  intros Hold E. unfold replace.
  destruct old as [|o old]; [done |].
  simpl String.length. by rewrite replace_from_step, E.
Qed.

Lemma has_char_app (c : ascii) (a b : string) :
  has_char c (a +:+ b) = has_char c a || has_char c b.
Proof.
  induction a as [|x a IH]; simpl; [done |]. by rewrite IH, orb_assoc.
Qed.

Section Token.
(** A token that opens with a dollar sign and has no other one. *)
Variables (body new : string).
Hypothesis body_plain : has_char "$" body = false.

Let old : string := String "$" body.

Lemma old_not_empty : old <> "".
Proof. done. Qed.

(** Text without a dollar sign is copied. *)
Lemma replace_plain (t s : string) :
  has_char "$" t = false ->
  replace (t +:+ s) old new = t +:+ replace s old new.
Proof.
  induction t as [|c t IH]; cbn [has_char String.append]; [done |].
  intros [Hc Ht]%orb_false_elim.
  rewrite replace_miss; [by rewrite IH | done |].
  apply strip_prefix_first. by apply Ascii.eqb_neq.
Qed.

(** An occurrence of the token's body cannot run into a dollar sign. *)
Lemma strip_prefix_before_dollar (p a rest r : string) :
  has_char "$" p = false ->
  strip_prefix p (a +:+ String "$" rest) = Some r ->
  exists a', strip_prefix p a = Some a' /\ r = a' +:+ String "$" rest.
Proof.
  revert a. induction p as [|d p IH]; intros a Hp; cbn [strip_prefix].
  - intros [= <-]. eauto.
  - cbn [has_char] in Hp. apply orb_false_elim in Hp as [Hd Hp].
    destruct a as [|y a]; cbn [String.append].
    + rewrite Ascii.eqb_sym, Hd. done.
    + destruct (Ascii.eqb d y); [by apply IH | done].
Qed.

(** The replacement works on the text before a dollar sign and on the
    text from it on independently. *)
Lemma replace_app_dollar (a rest : string) :
  replace (a +:+ String "$" rest) old new
  = replace a old new +:+ replace (String "$" rest) old new.
Proof.
  remember (String.length a) as n eqn:Hn. revert a Hn.
  induction (lt_wf n) as [n _ IH]; intros a ->.
  destruct a as [|c a]; [by rewrite replace_nil |].
  destruct (strip_prefix old (String c a +:+ String "$" rest))
    as [r|] eqn:E.
  - assert (exists a', strip_prefix old (String c a) = Some a'
                       /\ r = a' +:+ String "$" rest) as (a' & Ea & ->).
    { unfold old in *. cbn [strip_prefix String.append] in E |- *.
      destruct (Ascii.eqb "$" c); [| done].
      by apply strip_prefix_before_dollar. }
    rewrite (replace_hit _ _ _ _ old_not_empty E).
    rewrite (replace_hit _ _ _ _ old_not_empty Ea).
    rewrite (IH (String.length a')); [by rewrite append_assoc | | done].
    by apply (strip_prefix_shorter old).
  - assert (strip_prefix old (String c a) = None) as Ea.
    { destruct (strip_prefix old (String c a)) as [a'|] eqn:Ea; [| done].
      by rewrite (strip_prefix_app_l _ _ _ _ Ea) in E. }
    change (String c a +:+ String "$" rest)
      with (String c (a +:+ String "$" rest)) in *.
    rewrite (replace_miss _ _ _ _ old_not_empty E).
    rewrite (replace_miss _ _ _ _ old_not_empty Ea).
    simpl. f_equal. apply (IH (String.length a)); [simpl; lia | done].
Qed.

End Token.

(** *** Other placeholders pass through *)

Lemma strip_prefix_other_name (X name post : string) :
  has_char "}" X = false -> has_char "}" name = false -> X <> name ->
  strip_prefix (X +:+ "}") (name +:+ "}" +:+ post) = None.
Proof.
  revert name. induction X as [|x X IH]; intros name HX Hn Hne.
  - destruct name as [|c name]; [done |].
    cbn [has_char] in Hn. apply orb_false_elim in Hn as [Hc _].
    cbn [String.append strip_prefix]. by rewrite Hc.
  - cbn [has_char] in HX. apply orb_false_elim in HX as [Hx HX].
    destruct name as [|c name].
    + cbn [String.append strip_prefix]. by rewrite Ascii.eqb_sym, Hx.
    + cbn [has_char] in Hn. apply orb_false_elim in Hn as [Hc Hn].
      cbn [String.append strip_prefix].
      destruct (Ascii.eqb_spec x c) as [-> | _]; [| done].
      apply IH; [done | done | congruence].
Qed.

Lemma placeholder_unfold (name : string) :
  placeholder name = String "$" (String "{" (name +:+ "}")).
Proof. done. Qed.

Lemma replace_around_placeholder (X new pre name post : string) :
  has_char "$" X = false -> has_char "}" X = false ->
  has_char "$" name = false -> has_char "}" name = false -> X <> name ->
  replace (pre +:+ placeholder name +:+ post) (placeholder X) new
  = replace pre (placeholder X) new
      +:+ placeholder name +:+ replace post (placeholder X) new.
Proof.
  intros HX1 HX2 Hn1 Hn2 Hne.
  assert (has_char "$" (String "{" (X +:+ "}")) = false) as Hbody.
  { cbn [has_char]. by rewrite has_char_app, HX1. }
  rewrite !placeholder_unfold.
  change (String "$" (String "{" (name +:+ "}")) +:+ post)
    with (String "$" (String "{" (name +:+ "}") +:+ post)).
  rewrite (replace_app_dollar _ new Hbody). f_equal.
  rewrite replace_miss; [| done |].
  - rewrite replace_plain; [done |].
    cbn [has_char]. by rewrite has_char_app, Hn1.
  - cbn [strip_prefix String.append]. rewrite !Ascii.eqb_refl.
    rewrite append_assoc. by apply strip_prefix_other_name.
Qed.

(** A placeholder other than the two known ones is left where it stands
    by both replacements. *)
Lemma rendered_around_placeholder (pre name post qemu gns3 : string) :
  other_name name = true ->
  rendered (pre +:+ placeholder name +:+ post) qemu gns3
  = rendered pre qemu gns3 +:+ placeholder name +:+ rendered post qemu gns3.
Proof.
  unfold other_name. intros H.
  apply andb_prop in H as [H Hg]. apply andb_prop in H as [H Hq].
  apply andb_prop in H as [Hd Hb].
  apply negb_true_iff in Hd, Hb, Hg, Hq.
  apply String.eqb_neq in Hg, Hq.
  unfold rendered.
  change "${QEMU_VERSION}" with (placeholder "QEMU_VERSION").
  change "${GNS3_SERVER_VERSION}" with (placeholder "GNS3_SERVER_VERSION").
  rewrite replace_around_placeholder by (done || congruence).
  by rewrite replace_around_placeholder by (done || congruence).
Qed.

(** *** Two passes against one *)

Lemma substitute_from_enough (qemu gns3 : string) :
  forall f1 f2 s,
    (String.length s < f1)%nat -> (String.length s < f2)%nat ->
    substitute_from f1 qemu gns3 s = substitute_from f2 qemu gns3 s.
Proof.
  induction f1 as [|f1 IH]; intros f2 s H1 H2; [lia |].
  destruct f2 as [|f2]; [lia |]. cbn [substitute_from].
  destruct (strip_prefix "${QEMU_VERSION}" s) as [rest|] eqn:E1.
  { apply strip_prefix_shorter in E1; [| done]. f_equal. apply IH; lia. }
  destruct (strip_prefix "${GNS3_SERVER_VERSION}" s) as [rest|] eqn:E2.
  { apply strip_prefix_shorter in E2; [| done]. f_equal. apply IH; lia. }
  destruct s as [|c s]; [done |]. f_equal. apply IH; simpl in *; lia.
Qed.

Lemma substitute_from_step (f : nat) (qemu gns3 s : string) :
  substitute_from (S f) qemu gns3 s
  = match strip_prefix "${QEMU_VERSION}" s with
    | Some rest => qemu +:+ substitute_from f qemu gns3 rest
    | None =>
        match strip_prefix "${GNS3_SERVER_VERSION}" s with
        | Some rest => gns3 +:+ substitute_from f qemu gns3 rest
        | None =>
            match s with
            | String c s' => String c (substitute_from f qemu gns3 s')
            | EmptyString => EmptyString
            end
        end
    end.
Proof. done. Qed.

Section TwoPasses.
Variables (qemu gns3 : string).
Hypothesis qemu_inert : inert qemu = true.

Let r1 (s : string) : string := replace s "${QEMU_VERSION}" qemu.
Let r2 (s : string) : string := replace s "${GNS3_SERVER_VERSION}" gns3.

Lemma inert_parts :
  exists h q', qemu = String h q'
    /\ has_char "$" qemu = false
    /\ has_char h "{GNS3_SERVER_VERSION}" = false.
Proof.
  unfold inert in qemu_inert. destruct qemu as [|h q']; [done |].
  apply andb_prop in qemu_inert as [H1 H2].
  apply negb_true_iff in H1, H2. eauto.
Qed.

(** The first pass cannot complete a piece of the server token. *)
Lemma first_pass_no_new_prefix (p s x : string) :
  (forall h q', qemu = String h q' -> has_char h p = false) ->
  strip_prefix p (r1 s) = Some x ->
  exists y, strip_prefix p s = Some y.
Proof.
  destruct inert_parts as (h & q' & Eq & _ & _).
  revert s x. induction p as [|d p IH]; intros s x Hp; [by eauto |].
  pose proof (Hp h q' Eq) as Hh. cbn [has_char] in Hh.
  apply orb_false_elim in Hh as [Hd Hh].
  destruct s as [|e s]; unfold r1.
  - rewrite replace_nil by done. by cbn [strip_prefix].
  - destruct (strip_prefix "${QEMU_VERSION}" (String e s)) as [rest|] eqn:E.
    + rewrite (replace_hit _ "${QEMU_VERSION}" _ _ ltac:(done) E), Eq.
      cbn [String.append strip_prefix]. by rewrite Ascii.eqb_sym, Hd.
    + rewrite (replace_miss _ _ "${QEMU_VERSION}" _ ltac:(done) E).
      cbn [strip_prefix]. destruct (Ascii.eqb d e); [| done].
      apply IH. intros h' q'' E'. rewrite Eq in E'. by injection E' as <- <-.
Qed.

Lemma two_passes_from (fuel : nat) (s : string) :
  (String.length s < fuel)%nat ->
  substitute_from fuel qemu gns3 s = r2 (r1 s).
Proof.
  destruct inert_parts as (h & q' & Eq & Hdollar & Hfirst).
  revert s. induction fuel as [|fuel IH]; intros s Hlen; [lia |].
  rewrite substitute_from_step.
  destruct (strip_prefix "${QEMU_VERSION}" s) as [rest|] eqn:E1.
  { pose proof (strip_prefix_shorter "${QEMU_VERSION}" _ _ ltac:(done) E1).
    rewrite IH by lia. unfold r1 at 2.
    rewrite (replace_hit _ "${QEMU_VERSION}" _ _ ltac:(done) E1).
    unfold r2. symmetry.
    by apply (replace_plain "{GNS3_SERVER_VERSION}" gns3). }
  destruct (strip_prefix "${GNS3_SERVER_VERSION}" s) as [rest|] eqn:E2.
  { pose proof (strip_prefix_shorter "${GNS3_SERVER_VERSION}" _ _ ltac:(done) E2).
    rewrite IH by lia.
    apply strip_prefix_Some in E2 as ->.
    assert (r1 ("${GNS3_SERVER_VERSION}" +:+ rest)
            = "${GNS3_SERVER_VERSION}" +:+ r1 rest) as ->.
    { unfold r1.
      change ("${GNS3_SERVER_VERSION}" +:+ rest)
        with (String "$" ("{GNS3_SERVER_VERSION}" +:+ rest)).
      rewrite replace_miss; [| done | done].
      change ("${GNS3_SERVER_VERSION}" +:+ replace rest "${QEMU_VERSION}" qemu)
        with (String "$" ("{GNS3_SERVER_VERSION}"
                            +:+ replace rest "${QEMU_VERSION}" qemu)).
      f_equal. }
    unfold r2 at 2. symmetry. apply replace_hit; [done |].
    apply strip_prefix_app. }
  destruct s as [|c s]; [done |].
  rewrite IH by (simpl in Hlen; lia).
  unfold r1 at 2. rewrite (replace_miss _ _ "${QEMU_VERSION}" _ ltac:(done) E1).
  unfold r2 at 2. rewrite replace_miss; [done | done |].
  destruct (strip_prefix "${GNS3_SERVER_VERSION}"
              (String c (replace s "${QEMU_VERSION}" qemu)))
    as [x|] eqn:E; [| done].
  exfalso.
  change "${GNS3_SERVER_VERSION}"
    with (String "$" "{GNS3_SERVER_VERSION}") in E, E2.
  rewrite strip_prefix_cons in E, E2.
  destruct (Ascii.eqb "$" c); [| done].
  destruct (first_pass_no_new_prefix "{GNS3_SERVER_VERSION}" s x) as [y Hy].
  - intros h' q'' E'. rewrite Eq in E'. by injection E' as <- <-.
  - exact E.
  - by rewrite Hy in E2.
Qed.

(** For an inert QEMU value the two replacements, one after the other,
    give the simultaneous substitution. *)
Lemma rendered_simultaneous (template : string) :
  rendered template qemu gns3
  = substitute_simultaneously template qemu gns3.
Proof.
  unfold substitute_simultaneously. rewrite two_passes_from; [done | lia].
Qed.

End TwoPasses.

End ReplaceFacts.

(** ** Facts about the JSON encoder and decoder *)

Module JsonFacts.
Import PyStr Json Spec PyStrFacts ReplaceFacts.

#[local] Arguments String.append !_ _ / : simpl nomatch.

(** Induction over documents, with the hypothesis for every element. *)
Lemma json_induction (P : json -> Prop) :
  P JNull ->
  (forall b, P (JBool b)) ->
  (forall n, P (JInt n)) ->
  (forall s, P (JStr s)) ->
  (forall l, Forall P l -> P (JArr l)) ->
  (forall ms, Forall (fun kv => P kv.2) ms -> P (JObj ms)) ->
  forall v, P v.
Proof.
  intros Hnull Hbool Hint Hstr Harr Hobj.
  fix IH 1. intros [|b|n|s|l|ms].
  - exact Hnull.
  - apply Hbool.
  - apply Hint.
  - apply Hstr.
  - apply Harr. induction l as [|x l IHl]; constructor;
      [apply IH | exact IHl].
  - apply Hobj. induction ms as [|[k x] ms IHms]; constructor;
      [apply IH | exact IHms].
Qed.

(** *** Strings *)

Lemma scanstring_escape_char (c : ascii) (tail : string) :
  scanstring (escape_char c +:+ tail)
  = r ← scanstring tail; Some (String c r.1, r.2).
Proof. each_char c; reflexivity. Qed.

Lemma scanstring_escape (s rest : string) :
  scanstring (escape s +:+ String dquote rest) = Some (s, rest).
Proof.
  induction s as [|c s IH]; [done |].
  cbn [escape]. rewrite append_assoc, scanstring_escape_char, IH. done.
Qed.

(** *** Numbers *)

Lemma pretty_N_go_app (x : N) (s t : string) :
  pretty_N_go x s +:+ t = pretty_N_go x (s +:+ t).
Proof.
  revert s. induction (N.lt_wf_0 x) as [x _ IH]; intros s.
  destruct (N.eq_dec x 0%N) as [-> | Hx]; [by rewrite !pretty_N_go_0 |].
  rewrite (pretty_N_go_step x s), (pretty_N_go_step x (s +:+ t)) by lia.
  rewrite IH by (apply N.div_lt; lia). reflexivity.
Qed.

Lemma scan_int_digits_go (x : N) (s : string) :
  scan_int_digits 0 (pretty_N_go x s) = scan_int_digits (Z.of_N x) s.
Proof.
  revert s. induction (N.lt_wf_0 x) as [x _ IH]; intros s.
  destruct (N.eq_dec x 0%N) as [-> | Hx]; [by rewrite pretty_N_go_0 |].
  rewrite pretty_N_go_step by lia.
  rewrite IH by (apply N.div_lt; lia).
  destruct (pretty_N_char_digit (x `mod` 10)%N) as [Hd Hv];
    [by apply N.mod_lt |].
  cbn [scan_int_digits]. rewrite Hd, Hv. f_equal.
  pose proof (N.div_mod x 10%N). lia.
Qed.

Lemma pretty_N_char_zero (x : N) :
  (0 < x < 10)%N -> Ascii.eqb (pretty_N_char x) "0" = false.
Proof.
  intros H.
  assert (x = 1 \/ x = 2 \/ x = 3 \/ x = 4 \/ x = 5 \/ x = 6
          \/ x = 7 \/ x = 8 \/ x = 9)%N as Hx by lia.
  repeat destruct Hx as [-> | Hx]; try subst x; by vm_compute.
Qed.

(** The decimal text of a positive number opens with a digit other than
    zero. *)
Lemma pretty_N_go_leading (x : N) (s : string) :
  (0 < x)%N ->
  exists c r, pretty_N_go x s = String c r
              /\ is_digit c = true /\ Ascii.eqb c "0" = false.
Proof.
  revert s. induction (N.lt_wf_0 x) as [x _ IH]; intros s Hx.
  rewrite pretty_N_go_step by lia.
  destruct (N.eq_dec (x `div` 10)%N 0%N) as [E | E].
  - rewrite E, pretty_N_go_0.
    assert (x < 10)%N as Hlt.
    { apply N.div_small_iff in E; lia. }
    rewrite N.mod_small by done.
    destruct (pretty_N_char_digit x Hlt) as [Hd _].
    eexists _, _. split; [done |]. split; [done |].
    apply pretty_N_char_zero. lia.
  - apply IH; [apply N.div_lt; lia | by apply N.neq_0_lt_0].
Qed.

Lemma delimited_head (rest : string) :
  delimited rest = true ->
  float_tail rest = false
  /\ forall acc, scan_int_digits acc rest = (acc, rest).
Proof.
  destruct rest as [|c rest]; [done |].
  unfold delimited. intros H.
  each_char c; vm_compute in H; try discriminate H;
    by destruct rest.
Qed.

Lemma scan_unsigned_pretty (x : N) (rest : string) :
  (0 < x)%N -> delimited rest = true ->
  scan_unsigned (pretty_N_go x rest) = Some (Z.of_N x, rest).
Proof.
  intros Hx Hrest.
  destruct (pretty_N_go_leading x rest Hx) as (c & r & E & Hc & H0).
  pose proof (scan_int_digits_go x rest) as Hgo.
  rewrite E in *. cbn [scan_unsigned]. rewrite H0, Hc.
  cbn [scan_int_digits] in Hgo. rewrite Hc in Hgo.
  change (10 * 0 + digit_val c) with (digit_val c) in Hgo.
  rewrite Hgo. by destruct (delimited_head rest Hrest) as [_ ->].
Qed.

Lemma scan_number_digit_first (c : ascii) (r : string) :
  is_digit c = true ->
  scan_number (String c r)
  = x ← scan_unsigned (String c r);
    if float_tail x.2 then None else Some (JInt x.1, x.2).
Proof.
  intros H. unfold scan_number. rewrite strip_prefix_first; [done |].
  intros <-. by vm_compute in H.
Qed.

Lemma scan_number_str_of_int (n : Z) (rest : string) :
  delimited rest = true ->
  scan_number (str_of_int n +:+ rest) = Some (JInt n, rest).
Proof.
  intros Hrest. destruct (delimited_head rest Hrest) as [Hft _].
  unfold str_of_int, pretty, pretty_Z. destruct n as [|p|p].
  - cbn. by rewrite Hft.
  - change (pretty p) with (pretty (N.pos p)).
    unfold pretty, pretty_N. rewrite decide_False by done.
    rewrite pretty_N_go_app. cbn [String.append].
    destruct (pretty_N_go_leading (N.pos p) rest) as (c & r & E & Hc & _);
      [done |].
    pose proof (scan_unsigned_pretty (N.pos p) rest eq_refl Hrest) as Hs.
    rewrite E in *. rewrite (scan_number_digit_first c r Hc), Hs.
    cbn. by rewrite Hft.
  - change (pretty p) with (pretty (N.pos p)).
    unfold pretty, pretty_N. rewrite decide_False by done.
    cbn [String.append]. rewrite pretty_N_go_app. cbn [String.append].
    unfold scan_number.
    change (strip_prefix "-" (String "-" ?x)) with (Some x). cbv iota.
    rewrite (scan_unsigned_pretty (N.pos p) rest eq_refl Hrest).
    cbn. by rewrite Hft.
Qed.

(** The first character of the decimal text: a digit or the sign. *)
Lemma str_of_int_head (n : Z) :
  exists c r, str_of_int n = String c r
              /\ (is_digit c = true \/ c = "-"%char).
Proof.
  unfold str_of_int, pretty, pretty_Z. destruct n as [|p|p].
  - eexists _, _. split; [reflexivity | by left].
  - change (pretty p) with (pretty (N.pos p)).
    destruct (pretty_N_text (N.pos p)) as (c & r & E & Hc & _). eauto.
  - eexists _, _. split; [reflexivity | by right].
Qed.

Lemma scan_once_number (c : ascii) (r : string) (fuel : nat) :
  is_digit c = true \/ c = "-"%char ->
  scan_once (S fuel) (String c r) = scan_number (String c r).
Proof.
  intros [H | ->]; [| reflexivity].
  each_char c; try discriminate H; reflexivity.
Qed.

(** *** Layout *)

Lemma skip_ws_spaces (n : nat) (s : string) :
  skip_ws (spaces n +:+ s) = skip_ws s.
Proof. induction n as [|n IH]; [done |]. cbn. exact IH. Qed.

Lemma skip_ws_newline_indent (level : nat) (s : string) :
  skip_ws (newline_indent level +:+ s) = skip_ws s.
Proof. unfold newline_indent. cbn. apply skip_ws_spaces. Qed.

Lemma skip_ws_stop (c : ascii) (s : string) :
  is_ws c = false -> skip_ws (String c s) = String c s.
Proof. intros H. cbn. by rewrite H. Qed.

Lemma delimited_newline_indent (level : nat) (s : string) :
  delimited (newline_indent level +:+ s) = true.
Proof. done. Qed.

Lemma dump_array (level : nat) (x : json) (l : list json) :
  dump level (JArr (x :: l))
  = String "["
      (newline_indent (S level)
       +:+ (joined (dump (S level)) ("," +:+ newline_indent (S level)) (x :: l)
            +:+ (newline_indent level +:+ "]"))).
Proof. reflexivity. Qed.

Lemma dump_object (level : nat) (kv : string * json)
    (ms : list (string * json)) :
  dump level (JObj (kv :: ms))
  = String "{"
      (newline_indent (S level)
       +:+ (joined
              (fun kv => encode_string kv.1 +:+ ": " +:+ dump (S level) kv.2)
              ("," +:+ newline_indent (S level)) (kv :: ms)
            +:+ (newline_indent level +:+ "}"))).
Proof. reflexivity. Qed.

Lemma dump_array_app (level : nat) (x : json) (l : list json)
    (rest : string) :
  dump level (JArr (x :: l)) +:+ rest
  = String "["
      (newline_indent (S level)
       +:+ (joined (dump (S level)) ("," +:+ newline_indent (S level)) (x :: l)
            +:+ (newline_indent level +:+ String "]" rest))).
Proof.
  rewrite dump_array.
  change (String "[" ?a +:+ rest) with (String "[" (a +:+ rest)).
  by rewrite !append_assoc.
Qed.

Lemma dump_object_app (level : nat) (kv : string * json)
    (ms : list (string * json)) (rest : string) :
  dump level (JObj (kv :: ms)) +:+ rest
  = String "{"
      (newline_indent (S level)
       +:+ (joined
              (fun kv => encode_string kv.1 +:+ ": " +:+ dump (S level) kv.2)
              ("," +:+ newline_indent (S level)) (kv :: ms)
            +:+ (newline_indent level +:+ String "}" rest))).
Proof.
  rewrite dump_object.
  change (String "{" ?a +:+ rest) with (String "{" (a +:+ rest)).
  by rewrite !append_assoc.
Qed.

Lemma joined_cons {A} (f : A -> string) (sep : string) (x y : A)
    (l : list A) :
  joined f sep (x :: y :: l) = f x +:+ sep +:+ joined f sep (y :: l).
Proof. reflexivity. Qed.

(** A dumped value opens with a character that is neither blank nor a
    closing bracket. *)
Lemma dump_head (level : nat) (v : json) :
  exists c t, dump level v = String c t
              /\ is_ws c = false /\ Ascii.eqb c "]" = false.
Proof.
  destruct v as [|[]|n|s|[|x l]|[|kv ms]]; try (by eexists _, _).
  destruct (str_of_int_head n) as (c & r & E & Hc).
  exists c, r. split; [exact E |].
  destruct Hc as [Hc | ->]; [| done].
  each_char c; try discriminate Hc; done.
Qed.

Lemma skip_ws_dump (level : nat) (v : json) (s : string) :
  skip_ws (dump level v +:+ s) = dump level v +:+ s.
Proof.
  destruct (dump_head level v) as (c & t & -> & Hc & _).
  by apply skip_ws_stop.
Qed.

Lemma scan_once_array_open (fuel : nat) (s : string) (c : ascii)
    (t : string) :
  skip_ws s = String c t -> Ascii.eqb c "]" = false ->
  scan_once (S fuel) (String "[" s)
  = r ← scan_items fuel (String c t); Some (JArr r.1, r.2).
Proof.
  intros Hs Hc. cbn [scan_once]. by rewrite Hs, Hc.
Qed.

Lemma scan_once_object_open (fuel : nat) (s t : string) :
  skip_ws s = String dquote t ->
  scan_once (S fuel) (String "{" s)
  = r ← scan_members fuel t; Some (JObj (dict_of_pairs r.1), r.2).
Proof. intros Hs. cbn [scan_once]. by rewrite Hs. Qed.

(** *** Arrays and objects *)

Lemma scan_items_step (fuel : nat) (s : string) :
  scan_items (S fuel) s
  = r ← scan_once fuel s;
    match skip_ws r.2 with
    | String c s1 =>
        if Ascii.eqb c "]" then Some ([r.1], s1)
        else if Ascii.eqb c "," then
          rs ← scan_items fuel (skip_ws s1);
          Some (r.1 :: rs.1, rs.2)
        else None
    | EmptyString => None
    end.
Proof. reflexivity. Qed.

Lemma scan_members_step (fuel : nat) (s : string) :
  scan_members (S fuel) s
  = k ← scanstring s;
    match skip_ws k.2 with
    | String c0 s1 =>
        if Ascii.eqb c0 ":" then
          r ← scan_once fuel (skip_ws s1);
          match skip_ws r.2 with
          | String c s2 =>
              if Ascii.eqb c "}" then Some ([(k.1, r.1)], s2)
              else if Ascii.eqb c "," then
                match skip_ws s2 with
                | String c3 s3 =>
                    if Ascii.eqb c3 dquote then
                      rs ← scan_members fuel s3;
                      Some ((k.1, r.1) :: rs.1, rs.2)
                    else None
                | EmptyString => None
                end
              else None
          | EmptyString => None
          end
        else None
    | EmptyString => None
    end.
Proof. reflexivity. Qed.

Lemma skip_ws_joined (level : nat) (sep s : string) (l : list json) :
  l <> [] ->
  skip_ws (joined (dump level) sep l +:+ s) = joined (dump level) sep l +:+ s.
Proof.
  destruct l as [|x [|y l]]; [done | |]; intros _.
  - apply skip_ws_dump.
  - rewrite joined_cons, append_assoc. apply skip_ws_dump.
Qed.

Lemma joined_head (level : nat) (sep s : string) (l : list json) :
  l <> [] ->
  exists c t, joined (dump level) sep l +:+ s = String c t
              /\ is_ws c = false /\ Ascii.eqb c "]" = false.
Proof.
  destruct l as [|x l]; [done |]. intros _.
  destruct (dump_head level x) as (c & t & E & Hc & Hb).
  destruct l as [|y l].
  - cbn [joined]. rewrite E. by eexists _, _.
  - rewrite joined_cons, E. by eexists _, _.
Qed.

Lemma scan_items_joined (level : nat) (rest : string) (l : list json) :
  l <> [] ->
  Forall parses_back l ->
  forall fuel,
    (fold_right (fun x n => S (weight x + n)) O l <= fuel)%nat ->
    scan_items fuel
      (joined (dump (S level)) ("," +:+ newline_indent (S level)) l
       +:+ (newline_indent level +:+ String "]" rest))
    = Some (l, rest).
Proof.
  induction l as [|x l IH]; [done |]. intros _ Hall fuel Hfuel.
  apply Forall_cons in Hall as [Hx Hl].
  cbn [fold_right] in Hfuel.
  destruct fuel as [|fuel]; [lia |].
  rewrite scan_items_step.
  destruct l as [|y l].
  - cbn [joined].
    rewrite (Hx (S level)); [| done | cbn [fold_right] in Hfuel; lia].
    cbn [mbind option_bind fst snd].
    rewrite skip_ws_newline_indent. reflexivity.
  - rewrite joined_cons, !append_assoc.
    rewrite (Hx (S level)); [| done | lia].
    cbn [mbind option_bind fst snd String.append].
    rewrite skip_ws_stop by done.
    change (Ascii.eqb "," "]") with false.
    change (Ascii.eqb "," ",") with true. cbv iota.
    rewrite skip_ws_newline_indent, skip_ws_joined by done.
    rewrite IH; [done | done | done | lia].
Qed.

Lemma encode_string_app (k s : string) :
  encode_string k +:+ s = String dquote (escape k +:+ String dquote s).
Proof. unfold encode_string. cbn. by rewrite append_assoc. Qed.

Lemma scan_members_joined (level : nat) (rest : string)
    (ms : list (string * json)) :
  ms <> [] ->
  Forall (fun kv => parses_back kv.2) ms ->
  forall fuel,
    (fold_right (fun kv n => S (weight kv.2 + n)) O ms <= fuel)%nat ->
    exists T,
      joined (fun kv => encode_string kv.1 +:+ ": " +:+ dump (S level) kv.2)
        ("," +:+ newline_indent (S level)) ms
      +:+ (newline_indent level +:+ String "}" rest)
      = String dquote T
      /\ scan_members fuel T = Some (ms, rest).
Proof.
  induction ms as [|[k v] ms IH]; [done |]. intros _ Hall fuel Hfuel.
  apply Forall_cons in Hall as [Hv Hms]. cbn [snd] in Hv.
  cbn [fold_right snd] in Hfuel.
  destruct fuel as [|fuel]; [lia |].
  destruct ms as [|kv2 ms].
  - cbn [joined fst snd]. rewrite !append_assoc, encode_string_app.
    eexists. split; [reflexivity |].
    rewrite scan_members_step, scanstring_escape.
    cbn [mbind option_bind fst snd String.append].
    rewrite skip_ws_stop by done. cbn [skip_ws]. 
    change (is_ws " ") with true. cbv iota.
    rewrite skip_ws_dump.
    rewrite (Hv (S level)); [| done | cbn [fold_right] in Hfuel; lia].
    cbn [mbind option_bind fst snd].
    rewrite skip_ws_newline_indent. reflexivity.
  - destruct (IH ltac:(done) Hms fuel ltac:(lia)) as (T' & ET & HT).
    rewrite joined_cons. cbn [fst snd].
    rewrite !append_assoc, encode_string_app.
    eexists. split; [reflexivity |].
    rewrite scan_members_step, scanstring_escape.
    cbn [mbind option_bind fst snd String.append].
    rewrite skip_ws_stop by done. cbn [skip_ws].
    change (is_ws " ") with true. cbv iota.
    rewrite skip_ws_dump.
    rewrite (Hv (S level)); [| done | lia].
    cbn [mbind option_bind fst snd String.append].
    rewrite skip_ws_stop by done.
    change (Ascii.eqb "," "}") with false.
    change (Ascii.eqb "," ",") with true. cbv iota.
    rewrite skip_ws_newline_indent.
    cbn [String.append] in ET. rewrite ET, skip_ws_stop by done.
    rewrite Ascii.eqb_refl, HT. reflexivity.
Qed.

(** *** Dictionaries *)

Lemma dict_set_fresh (k : string) (v : json) (d : list (string * json)) :
  k ∉ d.*1 -> dict_set k v d = d ++ [(k, v)].
Proof.
  induction d as [|[k' v'] d IH]; [done |].
  cbn [fmap list_fmap fst]. intros [Hk Hd]%not_elem_of_cons.
  cbn [dict_set]. apply String.eqb_neq in Hk. rewrite Hk.
  cbn. f_equal. by apply IH.
Qed.

Lemma dict_of_pairs_distinct (ms : list (string * json)) :
  NoDup ms.*1 -> dict_of_pairs ms = ms.
Proof.
  unfold dict_of_pairs.
  cut (forall d, NoDup (d ++ ms).*1 ->
         fold_left (fun d kv => dict_set kv.1 kv.2 d) ms d = d ++ ms).
  { intros H Hms. by apply (H []). }
  induction ms as [|[k v] ms IH]; intros d Hnd.
  - by rewrite app_nil_r.
  - cbn [fold_left fst snd].
    rewrite fmap_app in Hnd. cbn in Hnd.
    assert (k ∉ d.*1) as Hk.
    { apply NoDup_app in Hnd as (_ & Hnd & _).
      intros Hin. apply (Hnd k Hin). left. }
    rewrite dict_set_fresh by done.
    rewrite IH; [by rewrite <- app_assoc |].
    by rewrite <- app_assoc, fmap_app.
Qed.

(** *** Round trip *)

Lemma well_formed_parses_back (v : json) :
  well_formed v = true -> parses_back v.
Proof.
  induction v as [|b|n|s|l IH|ms IH] using json_induction;
    intros Hwf level rest fuel Hrest Hfuel;
    (destruct fuel as [|fuel]; [cbn in Hfuel; lia |]).
  - reflexivity.
  - by destruct b.
  - cbn [dump].
    destruct (str_of_int_head n) as (c & r & E & Hc).
    pose proof (scan_number_str_of_int n rest Hrest) as Hn.
    rewrite E in *. cbn [String.append] in *.
    by rewrite scan_once_number.
  - cbn [dump]. unfold encode_string. cbn [String.append].
    rewrite append_assoc. cbn [scan_once String.append].
    change (Ascii.eqb dquote dquote) with true. cbv iota.
    by rewrite scanstring_escape.
  - destruct l as [|x l]; [reflexivity |].
    cbn [well_formed] in Hwf.
    assert (Forall parses_back (x :: l)) as Hall.
    { apply Forall_forall. intros y Hy.
      rewrite Forall_forall in IH. apply (IH y Hy).
      rewrite forallb_forall in Hwf. apply Hwf.
      by apply list_elem_of_In. }
    rewrite dump_array_app.
    destruct (joined_head (S level) ("," +:+ newline_indent (S level))
                (newline_indent level +:+ String "]" rest) (x :: l))
      as (c & t & Ej & Hc & Hb); [done |].
    rewrite (scan_once_array_open fuel _ c t);
      [| rewrite skip_ws_newline_indent, Ej; by apply skip_ws_stop
       | done].
    rewrite <- Ej.
    rewrite (scan_items_joined level rest (x :: l)); [done | done | done |].
    cbn [weight] in Hfuel. lia.
  - destruct ms as [|kv ms]; [reflexivity |].
    cbn [well_formed] in Hwf. apply andb_prop in Hwf as [Hnd Hvals].
    apply bool_decide_eq_true in Hnd.
    assert (Forall (fun kv => parses_back kv.2) (kv :: ms)) as Hall.
    { apply Forall_forall. intros y Hy.
      rewrite Forall_forall in IH. apply (IH y Hy).
      rewrite forallb_forall in Hvals. apply Hvals.
      by apply list_elem_of_In. }
    rewrite dump_object_app.
    destruct (scan_members_joined level rest (kv :: ms)
                ltac:(done) Hall fuel) as (T & ET & HT).
    { cbn [weight] in Hfuel. lia. }
    rewrite (scan_once_object_open fuel _ T);
      [| rewrite skip_ws_newline_indent, ET; by apply skip_ws_stop].
    rewrite HT. cbn [mbind option_bind fst snd].
    by rewrite dict_of_pairs_distinct.
Qed.

(** The dumped text is at least as long as the weight of the document. *)
Lemma weight_joined {A} (f : A -> string) (w : A -> nat) (sep : string)
    (l : list A) :
  sep <> "" ->
  Forall (fun x => (w x <= String.length (f x))%nat) l ->
  (fold_right (fun x n => S (w x + n)) O l
   <= S (String.length (joined f sep l)))%nat.
Proof.
  intros Hsep. induction l as [|x l IH]; intros Hall; [cbn; lia |].
  apply Forall_cons in Hall as [Hx Hl]. specialize (IH Hl).
  destruct l as [|y l].
  - cbn [fold_right joined]. lia.
  - rewrite joined_cons, !length_append.
    assert (1 <= String.length sep)%nat by (destruct sep; [done | cbn; lia]).
    cbn [fold_right] in *. lia.
Qed.

Lemma weight_dump (level : nat) (v : json) :
  (weight v <= String.length (dump level v))%nat.
Proof.
  revert level.
  induction v as [|b|n|s|l IH|ms IH] using json_induction; intros level.
  - cbn. lia.
  - destruct b; cbn; lia.
  - cbn [weight dump].
    destruct (str_of_int_head n) as (c & r & -> & _). cbn. lia.
  - cbn. lia.
  - destruct l as [|x l]; [cbn; lia |].
    rewrite dump_array. cbn [weight String.length].
    rewrite !length_append.
    pose proof (weight_joined (dump (S level)) weight
                  ("," +:+ newline_indent (S level)) (x :: l)
                  ltac:(done)) as H.
    cbn [String.length newline_indent] in H |- *.
    rewrite ?length_append in H |- *.
    cbn [String.length] in H |- *.
    assert (Forall (fun x => (weight x <= String.length (dump (S level) x))%nat)
              (x :: l)) as Hall.
    { eapply Forall_impl; [exact IH |]. intros y Hy. apply Hy. }
    specialize (H Hall). lia.
  - destruct ms as [|kv ms]; [cbn; lia |].
    rewrite dump_object. cbn [weight String.length].
    rewrite !length_append.
    pose proof (weight_joined
                  (fun kv => encode_string kv.1 +:+ ": " +:+ dump (S level) kv.2)
                  (fun kv => weight kv.2)
                  ("," +:+ newline_indent (S level)) (kv :: ms)
                  ltac:(done)) as H.
    cbn [String.length newline_indent] in H |- *.
    rewrite ?length_append in H |- *.
    cbn [String.length] in H |- *.
    assert (Forall (fun kv : string * json =>
                      (weight kv.2
                       <= String.length (encode_string kv.1 +:+ ": "
                                          +:+ dump (S level) kv.2))%nat)
              (kv :: ms)) as Hall.
    { eapply Forall_impl; [exact IH |]. intros y Hy. cbn beta.
      rewrite !length_append. specialize (Hy (S level)). lia. }
    specialize (H Hall). lia.
Qed.

(** [json.loads(json.dumps(v)) == v] *)
Lemma loads_dumps (v : json) :
  well_formed v = true -> loads (dumps v) = Some v.
Proof.
  intros Hwf. unfold loads, dumps.
  pose proof (skip_ws_dump 0 v "") as Hskip.
  rewrite append_nil_r in Hskip. rewrite Hskip.
  pose proof (well_formed_parses_back v Hwf 0%nat ""
                (S (String.length (dump 0 v))) eq_refl) as Hscan.
  rewrite append_nil_r in Hscan. rewrite Hscan; [done |].
  pose proof (weight_dump 0 v). lia.
Qed.

(** *** What the decoder builds is well formed *)

Lemma dict_get_set_same (k : string) (v : json) (d : list (string * json)) :
  dict_get k (dict_set k v d) = Some v.
Proof.
  induction d as [|[k' v'] d IH]; cbn [dict_set dict_get].
  - by rewrite String.eqb_refl.
  - destruct (String.eqb_spec k k') as [-> | Hne]; cbn [dict_get].
    + by rewrite String.eqb_refl.
    + apply String.eqb_neq in Hne. by rewrite Hne.
Qed.

Lemma dict_set_keys (k : string) (v : json) (d : list (string * json)) :
  (dict_set k v d).*1 = if decide (k ∈ d.*1) then d.*1 else d.*1 ++ [k].
Proof.
  induction d as [|[k' v'] d IH]; [done |].
  cbn [dict_set]. destruct (String.eqb_spec k k') as [-> | Hne].
  - cbn. rewrite decide_True; [done | left].
  - cbn [fmap list_fmap fst]. fold (fmap (M:=list) (@fst string json)).
    change (list_fmap _ _ fst ?l) with (l.*1). rewrite IH.
    destruct (decide (k ∈ d.*1)) as [Hin | Hnin].
    + rewrite decide_True; [done | by right].
    + rewrite decide_False; [done |]. by intros [? | ?]%elem_of_cons.
Qed.

Lemma dict_set_NoDup (k : string) (v : json) (d : list (string * json)) :
  NoDup d.*1 -> NoDup (dict_set k v d).*1.
Proof.
  intros Hd. rewrite dict_set_keys. case_decide; [done |].
  apply NoDup_app. split; [done |]. split; [| apply NoDup_singleton].
  intros x Hx ->%list_elem_of_singleton. done.
Qed.

Lemma dict_set_values (k : string) (v : json) (d : list (string * json)) :
  well_formed v = true ->
  forallb (fun kv => well_formed kv.2) d = true ->
  forallb (fun kv => well_formed kv.2) (dict_set k v d) = true.
Proof.
  intros Hv. induction d as [|[k' v'] d IH]; cbn [dict_set forallb snd].
  - by rewrite Hv.
  - intros [H1 H2]%andb_prop.
    destruct (String.eqb k k'); cbn [forallb snd].
    + by rewrite Hv, H2.
    + by rewrite H1, IH.
Qed.

Lemma dict_get_value (k : string) (d : list (string * json)) (v : json) :
  forallb (fun kv => well_formed kv.2) d = true ->
  dict_get k d = Some v -> well_formed v = true.
Proof.
  induction d as [|[k' v'] d IH]; [done |]. cbn [forallb snd dict_get].
  intros [H1 H2]%andb_prop.
  destruct (String.eqb k k'); [by intros [= <-] | by apply IH].
Qed.

Lemma well_formed_object (ms : list (string * json)) :
  well_formed (JObj ms) = true
  <-> NoDup ms.*1 /\ forallb (fun kv => well_formed kv.2) ms = true.
Proof.
  cbn [well_formed]. rewrite andb_true_iff, bool_decide_eq_true. done.
Qed.

Lemma well_formed_dict_set (k : string) (v : json)
    (d : list (string * json)) :
  well_formed v = true -> well_formed (JObj d) = true ->
  well_formed (JObj (dict_set k v d)) = true.
Proof.
  rewrite !well_formed_object. intros Hv [Hk Hd].
  split; [by apply dict_set_NoDup | by apply dict_set_values].
Qed.

Lemma well_formed_dict_of_pairs (ps : list (string * json)) :
  forallb (fun kv => well_formed kv.2) ps = true ->
  well_formed (JObj (dict_of_pairs ps)) = true.
Proof.
  unfold dict_of_pairs.
  cut (forall d, well_formed (JObj d) = true ->
         forallb (fun kv => well_formed kv.2) ps = true ->
         well_formed
           (JObj (fold_left (fun d kv => dict_set kv.1 kv.2 d) ps d)) = true).
  { intros H. by apply H. }
  induction ps as [|[k v] ps IH]; intros d Hd; [done |].
  cbn [forallb fold_left fst snd]. intros [Hv Hps]%andb_prop.
  apply IH; [by apply well_formed_dict_set | done].
Qed.

Lemma scan_number_well_formed (s : string) (v : json) (r : string) :
  scan_number s = Some (v, r) -> well_formed v = true.
Proof.
  unfold scan_number. intros (x & _ & H)%bind_Some.
  destruct (float_tail x.2); [done |]. by injection H as <- _.
Qed.

Lemma scan_well_formed (fuel : nat) :
  (forall s v r, scan_once fuel s = Some (v, r) -> well_formed v = true)
  /\ (forall s l r, scan_items fuel s = Some (l, r) ->
        forallb well_formed l = true)
  /\ (forall s ms r, scan_members fuel s = Some (ms, r) ->
        forallb (fun kv => well_formed kv.2) ms = true).
Proof.
  induction fuel as [|fuel (IHv & IHl & IHm)]; [done |].
  split; [| split].
  - intros s v r. cbn [scan_once].
    destruct s as [|c s]; [done |].
    repeat case_match; try done; intros Hscan;
      try (by eapply scan_number_well_formed);
      simplify_option_eq; try done.
    all: match goal with
         | E : scan_members _ _ = Some ?p |- _ =>
             destruct p as [ms' r'];
             apply (well_formed_dict_of_pairs ms'); by eapply IHm
         | E : scan_items _ _ = Some ?p |- _ =>
             destruct p as [l' r']; by eapply IHl
         end.
  - intros s l r. rewrite scan_items_step.
    destruct (scan_once fuel s) as [[v r1]|] eqn:Ev; [| done].
    cbn [mbind option_bind fst snd].
    destruct (skip_ws r1) as [|c s1]; [done |].
    destruct (Ascii.eqb c "]").
    + intros [= <- <-]. cbn. by rewrite (IHv _ _ _ Ev).
    + destruct (Ascii.eqb c ","); [| done].
      destruct (scan_items fuel (skip_ws s1)) as [[l' r2]|] eqn:El; [| done].
      cbn. intros [= <- <-]. cbn.
      by rewrite (IHv _ _ _ Ev), (IHl _ _ _ El).
  - intros s ms r. rewrite scan_members_step.
    destruct (scanstring s) as [[k r0]|]; [| done].
    cbn [mbind option_bind fst snd].
    destruct (skip_ws r0) as [|c0 s1]; [done |].
    destruct (Ascii.eqb c0 ":"); [| done].
    destruct (scan_once fuel (skip_ws s1)) as [[v r1]|] eqn:Ev; [| done].
    cbn [mbind option_bind fst snd].
    destruct (skip_ws r1) as [|c s2]; [done |].
    destruct (Ascii.eqb c "}");
      [intros [= <- <-]; cbn; by rewrite (IHv _ _ _ Ev) |].
    destruct (Ascii.eqb c ","); [| done].
    destruct (skip_ws s2) as [|c3 s3]; [done |].
    destruct (Ascii.eqb c3 dquote); [| done].
    destruct (scan_members fuel s3) as [[ms' r2]|] eqn:Em; [| done].
    cbn; intros [= <- <-]; cbn.
    by rewrite (IHv _ _ _ Ev), (IHm _ _ _ Em).
Qed.

(** A document that [json.loads] returns is well formed. *)
Lemma loads_well_formed (text : string) (v : json) :
  loads text = Some v -> well_formed v = true.
Proof.
  unfold loads.
  destruct (scan_once _ _) as [[v' r]|] eqn:E; [| done].
  cbn. destruct (skip_ws r); [| done]. intros [= <-].
  by eapply (scan_well_formed _).
Qed.

End JsonFacts.

(** ** The decoder does not depend on its fuel *)

Module DecoderFuel.
Import PyStr Json Spec PyStrFacts ReplaceFacts JsonFacts.

Lemma skip_ws_length (s : string) :
  (String.length (skip_ws s) <= String.length s)%nat.
Proof.
  induction s as [|c s IH]; [done |]. cbn [skip_ws].
  destruct (is_ws c); cbn [String.length]; lia.
Qed.

Lemma strip_prefix_length (p s r : string) :
  strip_prefix p s = Some r ->
  String.length s = (String.length p + String.length r)%nat.
Proof. intros ->%strip_prefix_Some. apply length_append. Qed.

Lemma scanstring_shorter (s x r : string) :
  scanstring s = Some (x, r) -> (String.length r < String.length s)%nat.
Proof.
  remember (String.length s) as n eqn:Hn. revert s x r Hn.
  induction (lt_wf n) as [n _ IH]; intros s x r -> H.
  destruct s as [|c s]; [done |]. cbn [scanstring] in H.
  destruct (Ascii.eqb c dquote).
  { injection H as <- <-. cbn. lia. }
  destruct (Ascii.eqb c backslash).
  - destruct s as [|e s]; [done |].
    destruct (Ascii.eqb e "u").
    + destruct s as [|h1 [|h2 [|h3 [|h4 s]]]]; try done.
      apply bind_Some in H as (n & _ & H).
      destruct (n <? 256); [| done].
      apply bind_Some in H as ([x' r'] & Hs & [= <- <-]).
      apply (IH (String.length s)) in Hs; cbn in *; [lia | lia | done].
    + apply bind_Some in H as (ch & _ & H).
      apply bind_Some in H as ([x' r'] & Hs & [= <- <-]).
      apply (IH (String.length s)) in Hs; cbn in *; [lia | lia | done].
  - destruct (code c <? 32); [done |].
    apply bind_Some in H as ([x' r'] & Hs & [= <- <-]).
    apply (IH (String.length s)) in Hs; cbn in *; [lia | lia | done].
Qed.

Lemma scan_int_digits_length (acc : Z) (s : string) :
  (String.length (scan_int_digits acc s).2 <= String.length s)%nat.
Proof.
  revert acc. induction s as [|c s IH]; intros acc; [done |].
  cbn [scan_int_digits]. destruct (is_digit c); [| done].
  specialize (IH (10 * acc + digit_val c)). cbn [String.length]. lia.
Qed.

Lemma scan_unsigned_shorter (s : string) (x : Z * string) :
  scan_unsigned s = Some x -> (String.length x.2 < String.length s)%nat.
Proof.
  destruct s as [|c s]; [done |]. cbn [scan_unsigned].
  destruct (Ascii.eqb c "0"); [intros [= <-]; cbn; lia |].
  destruct (is_digit c); [| done]. intros [= <-].
  pose proof (scan_int_digits_length (digit_val c) s). cbn [String.length]. lia.
Qed.

Lemma scan_number_shorter (s : string) (v : json) (r : string) :
  scan_number s = Some (v, r) -> (String.length r < String.length s)%nat.
Proof.
  unfold scan_number. intros (x & Hx & H)%bind_Some.
  destruct (float_tail x.2); [done |]. injection H as _ <-.
  destruct (strip_prefix "-" s) as [s'|] eqn:E.
  - apply bind_Some in Hx as (y & Hy%scan_unsigned_shorter & [= <-]).
    apply strip_prefix_length in E. cbn in *. lia.
  - by apply scan_unsigned_shorter.
Qed.

Lemma scan_once_step (fuel : nat) (c : ascii) (s' : string) :
  scan_once (S fuel) (String c s')
  = if Ascii.eqb c dquote then
      r ← scanstring s'; Some (JStr r.1, r.2)
    else if Ascii.eqb c "{" then
      match skip_ws s' with
      | String c1 s1 =>
          if Ascii.eqb c1 "}" then Some (JObj [], s1)
          else if Ascii.eqb c1 dquote then
            r ← scan_members fuel s1;
            Some (JObj (dict_of_pairs r.1), r.2)
          else None
      | EmptyString => None
      end
    else if Ascii.eqb c "[" then
      match skip_ws s' with
      | String c1 s1 =>
          if Ascii.eqb c1 "]" then Some (JArr [], s1)
          else
            r ← scan_items fuel (String c1 s1);
            Some (JArr r.1, r.2)
      | EmptyString => None
      end
    else if Ascii.eqb c "n" then
      r ← strip_prefix "null" (String c s'); Some (JNull, r)
    else if Ascii.eqb c "t" then
      r ← strip_prefix "true" (String c s'); Some (JBool true, r)
    else if Ascii.eqb c "f" then
      r ← strip_prefix "false" (String c s'); Some (JBool false, r)
    else scan_number (String c s').
Proof. reflexivity. Qed.

(** Each of the three scanners consumes at least one character. *)
Lemma scan_shorter (fuel : nat) :
  (forall s v r, scan_once fuel s = Some (v, r) ->
     (String.length r < String.length s)%nat)
  /\ (forall s l r, scan_items fuel s = Some (l, r) ->
        (String.length r < String.length s)%nat)
  /\ (forall s ms r, scan_members fuel s = Some (ms, r) ->
        (String.length r < String.length s)%nat).
Proof.
  induction fuel as [|fuel (IHv & IHl & IHm)]; [done |].
  split; [| split].
  - intros s v r. destruct s as [|c s]; [done |].
    rewrite scan_once_step.
    destruct (Ascii.eqb c dquote).
    { intros ([x r'] & Hs%scanstring_shorter & [= _ <-])%bind_Some.
      cbn in *. lia. }
    destruct (Ascii.eqb c "{").
    { pose proof (skip_ws_length s) as Hws.
      destruct (skip_ws s) as [|c1 s1]; [done |].
      destruct (Ascii.eqb c1 "}"); [intros [= _ <-]; cbn in *; lia |].
      destruct (Ascii.eqb c1 dquote); [| done].
      intros ([x r'] & Hs%IHm & [= _ <-])%bind_Some. cbn in *. lia. }
    destruct (Ascii.eqb c "[").
    { pose proof (skip_ws_length s) as Hws.
      destruct (skip_ws s) as [|c1 s1]; [done |].
      destruct (Ascii.eqb c1 "]"); [intros [= _ <-]; cbn in *; lia |].
      intros ([x r'] & Hs%IHl & [= _ <-])%bind_Some. cbn in *. lia. }
    destruct (Ascii.eqb c "n").
    { intros (r' & Hs%strip_prefix_length & [= _ <-])%bind_Some.
      cbn in *. lia. }
    destruct (Ascii.eqb c "t").
    { intros (r' & Hs%strip_prefix_length & [= _ <-])%bind_Some.
      cbn in *. lia. }
    destruct (Ascii.eqb c "f").
    { intros (r' & Hs%strip_prefix_length & [= _ <-])%bind_Some.
      cbn in *. lia. }
    apply scan_number_shorter.
  - intros s l r. rewrite scan_items_step.
    intros ([v r1] & Hv%IHv & H)%bind_Some. cbn [fst snd] in H.
    pose proof (skip_ws_length r1) as Hws.
    destruct (skip_ws r1) as [|c s1]; [done |].
    destruct (Ascii.eqb c "]"); [injection H as _ <-; cbn in *; lia |].
    destruct (Ascii.eqb c ","); [| done].
    apply bind_Some in H as ([l' r2] & Hl%IHl & [= _ <-]).
    pose proof (skip_ws_length s1). cbn in *. lia.
  - intros s ms r. rewrite scan_members_step.
    intros ([k r0] & Hk%scanstring_shorter & H)%bind_Some.
    cbn [fst snd] in H.
    pose proof (skip_ws_length r0) as Hws0.
    destruct (skip_ws r0) as [|c0 s1]; [done |].
    destruct (Ascii.eqb c0 ":"); [| done].
    apply bind_Some in H as ([v r1] & Hv%IHv & H). cbn [fst snd] in H.
    pose proof (skip_ws_length s1) as Hws1.
    pose proof (skip_ws_length r1) as Hws2.
    destruct (skip_ws r1) as [|c s2]; [done |].
    destruct (Ascii.eqb c "}"); [injection H as _ <-; cbn in *; lia |].
    destruct (Ascii.eqb c ","); [| done].
    pose proof (skip_ws_length s2) as Hws3.
    destruct (skip_ws s2) as [|c3 s3]; [done |].
    destruct (Ascii.eqb c3 dquote); [| done].
    apply bind_Some in H as ([ms' r2] & Hm%IHm & [= _ <-]).
    cbn in *. lia.
Qed.

(** As many units of fuel as characters consumed are enough. *)
Lemma scan_enough (fuel : nat) :
  (forall s v r, scan_once fuel s = Some (v, r) ->
     forall f, (String.length s - String.length r <= f)%nat ->
       scan_once f s = Some (v, r))
  /\ (forall s l r, scan_items fuel s = Some (l, r) ->
        forall f, (String.length s - String.length r <= f)%nat ->
          scan_items f s = Some (l, r))
  /\ (forall s ms r, scan_members fuel s = Some (ms, r) ->
        forall f, (String.length s - String.length r <= f)%nat ->
          scan_members f s = Some (ms, r)).
Proof.
  induction fuel as [|fuel (IHv & IHl & IHm)]; [done |].
  destruct (scan_shorter fuel) as (Sv & Sl & Sm).
  split; [| split].
  - intros s v r H f Hf.
    pose proof (proj1 (scan_shorter (S fuel)) s v r H) as Hlen.
    destruct f as [|f]; [lia |].
    destruct s as [|c s]; [done |].
    rewrite scan_once_step in H |- *.
    destruct (Ascii.eqb c dquote); [done |].
    destruct (Ascii.eqb c "{").
    { pose proof (skip_ws_length s) as Hws.
      destruct (skip_ws s) as [|c1 s1]; [done |].
      destruct (Ascii.eqb c1 "}"); [done |].
      destruct (Ascii.eqb c1 dquote); [| done].
      apply bind_Some in H as ([x r'] & Hs & [= <- <-]).
      rewrite (IHm _ _ _ Hs f); [done |]. cbn in *. lia. }
    destruct (Ascii.eqb c "[").
    { pose proof (skip_ws_length s) as Hws.
      destruct (skip_ws s) as [|c1 s1]; [done |].
      destruct (Ascii.eqb c1 "]"); [done |].
      apply bind_Some in H as ([x r'] & Hs & [= <- <-]).
      rewrite (IHl _ _ _ Hs f); [done |]. cbn in *. lia. }
    done.
  - intros s l r H f Hf.
    pose proof (proj1 (proj2 (scan_shorter (S fuel))) s l r H) as Hlen.
    destruct f as [|f]; [lia |].
    rewrite scan_items_step in H |- *.
    apply bind_Some in H as ([v r1] & Hv & H). cbn [fst snd] in H.
    pose proof (Sv _ _ _ Hv) as Hv1.
    pose proof (skip_ws_length r1) as Hws.
    destruct (skip_ws r1) as [|c s1] eqn:E1; [done |].
    destruct (Ascii.eqb c "]") eqn:Ec.
    { injection H as <- <-.
      rewrite (IHv _ _ _ Hv f) by (cbn in *; lia).
      cbn [mbind option_bind fst snd]. by rewrite E1, Ec. }
    destruct (Ascii.eqb c ",") eqn:Ec'; [| done].
    apply bind_Some in H as ([l' r2] & Hl & [= <- <-]).
    pose proof (Sl _ _ _ Hl) as Hl1.
    pose proof (skip_ws_length s1) as Hws1.
    rewrite (IHv _ _ _ Hv f) by (cbn in *; lia).
    cbn [mbind option_bind fst snd]. rewrite E1, Ec, Ec'.
    rewrite (IHl _ _ _ Hl f) by (cbn in *; lia). done.
  - intros s ms r H f Hf.
    pose proof (proj2 (proj2 (scan_shorter (S fuel))) s ms r H) as Hlen.
    destruct f as [|f]; [lia |].
    rewrite scan_members_step in H |- *.
    apply bind_Some in H as ([k r0] & Hk & H). rewrite Hk.
    cbn [mbind option_bind fst snd] in H |- *.
    pose proof (scanstring_shorter _ _ _ Hk) as Hk1.
    pose proof (skip_ws_length r0) as Hws0.
    destruct (skip_ws r0) as [|c0 s1]; [done |].
    destruct (Ascii.eqb c0 ":"); [| done].
    apply bind_Some in H as ([v r1] & Hv & H). cbn [fst snd] in H.
    pose proof (Sv _ _ _ Hv) as Hv1.
    pose proof (skip_ws_length s1) as Hws1.
    pose proof (skip_ws_length r1) as Hws2.
    destruct (skip_ws r1) as [|c s2] eqn:E1; [done |].
    destruct (Ascii.eqb c "}") eqn:Ec.
    { injection H as <- <-.
      rewrite (IHv _ _ _ Hv f) by (cbn in *; lia).
      cbn [mbind option_bind fst snd]. by rewrite E1, Ec. }
    destruct (Ascii.eqb c ",") eqn:Ec'; [| done].
    pose proof (skip_ws_length s2) as Hws3.
    destruct (skip_ws s2) as [|c3 s3] eqn:E2; [done |].
    destruct (Ascii.eqb c3 dquote) eqn:Ec3; [| done].
    apply bind_Some in H as ([ms' r2] & Hm & [= <- <-]).
    pose proof (Sm _ _ _ Hm) as Hm1.
    rewrite (IHv _ _ _ Hv f) by (cbn in *; lia).
    cbn [mbind option_bind fst snd]. rewrite E1, Ec, Ec', E2, Ec3.
    rewrite (IHm _ _ _ Hm f) by (cbn in *; lia). done.
Qed.

(** [loads] finds the document whenever some amount of fuel does: the
    bound it uses is never the reason for a failure. *)
Lemma loads_any_fuel (text : string) (v : json) :
  loads text = Some v
  <-> exists fuel r,
        scan_once fuel (skip_ws text) = Some (v, r) /\ skip_ws r = "".
Proof.
  unfold loads. split.
  - intros ([v' r] & Hs & H)%bind_Some. cbn [fst snd] in H.
    destruct (skip_ws r) eqn:E; [| done]. injection H as <-. eauto.
  - intros (fuel & r & Hs & Hr).
    pose proof (skip_ws_length text).
    rewrite (proj1 (scan_enough fuel) _ _ _ Hs) by lia.
    cbn [mbind option_bind fst snd]. by rewrite Hr.
Qed.

End DecoderFuel.

Module SelectorClaims.
Import PyStr Json GNS3Manager Spec Sample PyStrFacts SelectFacts.

(** C1.  Let the configuration list the non-empty sequence [vs] of [N]
    versions for [component], and let the terminal first send the lines
    [pre], each one rejected (it is not the cancel input, and it is not the
    number of a version: either no integer or one outside [1..N]).  Every
    rejected line is answered by a message and a new prompt, after which:
    - if the next line is the decimal text of [k] with [1 <= k <= N],
      [select_version] returns the [k]-th version;
    - if the next line is [q], it returns no selection;
    in both cases the object and the files are as before, and the events
    after that line are left on the terminal.  With the list [a], [b], [c]:
    the line [2] returns [b]; the line [q] returns no selection; the lines
    [5] then [1] show one message of invalid choice, one more prompt, and
    return [a]. *)
Theorem C1_select_version (component : string) (m : manager) (w : world)
    (vs : list json) (pre : list string) (rest : list input_event) :
  offers m component vs ->
  vs <> [] ->
  forallb (rejected (Z.of_nat (length vs))) pre = true ->
  let n := Z.of_nat (length vs) in
  let shown := MAvailable component :: numbered 1 vs
                 ++ reprompts component n pre in
  (forall k, 1 <= k <= n ->
     stdin w = (Line <$> pre) ++ Line (str_of_int k) :: rest ->
     exists v, vs !! Z.to_nat (k - 1) = Some v /\
       select_version component (m, w)
       = (Ret (Some v),
          (m, after_session w rest
                (shown ++ [MAskVersion component n; MSelected v]))))
  /\ (stdin w = (Line <$> pre) ++ Line "q" :: rest ->
      select_version component (m, w)
      = (Ret None,
         (m, after_session w rest (shown ++ [MAskVersion component n]))))
  /\ (vs = [JStr "a"; JStr "b"; JStr "c"] ->
      (stdin w = Line "2" :: rest ->
       select_version component (m, w)
       = (Ret (Some (JStr "b")),
          (m, after_session w rest
                (MAvailable component :: numbered 1 vs
                   ++ [MAskVersion component 3; MSelected (JStr "b")]))))
      /\ (stdin w = Line "q" :: rest ->
          select_version component (m, w)
          = (Ret None,
             (m, after_session w rest
                   (MAvailable component :: numbered 1 vs
                      ++ [MAskVersion component 3]))))
      /\ (stdin w = Line "5" :: Line "1" :: rest ->
          select_version component (m, w)
          = (Ret (Some (JStr "a")),
             (m, after_session w rest
                   (MAvailable component :: numbered 1 vs
                      ++ [MAskVersion component 3; MInvalidChoice 3;
                          MAskVersion component 3; MSelected (JStr "a")]))))).
Proof.
  intros Hoff Hne Hpre n shown.
  pose proof (select_version_offered component m w vs Hoff Hne) as Hsel.
  split; [| split].
  - intros k Hk Hin.
    destruct (select_loop_accept component vs (str_of_int k) k rest)
      as (v & Hv & Hloop).
    { rewrite strip_str_of_int. apply lower_str_of_int. }
    { rewrite strip_str_of_int. apply int_str_of_int. }
    { done. }
    exists v. split; [done |].
    rewrite Hsel, Hin, (select_loop_rejected _ _ _ _ _ Hpre), Hloop.
    simpl. unfold shown. by rewrite <- !app_assoc.
  - intros Hin.
    rewrite Hsel, Hin, (select_loop_rejected _ _ _ _ _ Hpre).
    rewrite select_loop_cancel by done.
    simpl. unfold shown. by rewrite <- !app_assoc.
  - intros ->. repeat split; intros Hin; rewrite Hsel, Hin; reflexivity.
Qed.

Lemma C1_select_version_witness :
  select_version "qemu"
    (sample_manager,
     sample_world [Line "5"; Line "two"; Line "2"; Line "3"])
  = (Ret (Some (JStr "b")),
     (sample_manager,
      after_session (sample_world []) [Line "3"]
        [MAvailable "qemu"; MItem 1 (JStr "a"); MItem 2 (JStr "b");
         MItem 3 (JStr "c");
         MAskVersion "qemu" 3; MInvalidChoice 3;
         MAskVersion "qemu" 3; MInvalidInput;
         MAskVersion "qemu" 3; MSelected (JStr "b")])).
Proof.
  destruct (C1_select_version "qemu" sample_manager
              (sample_world [Line "5"; Line "two"; Line "2"; Line "3"])
              [JStr "a"; JStr "b"; JStr "c"] ["5"; "two"] [Line "3"])
    as [H _].
  - by eexists _, _.
  - done.
  - by vm_compute.
  - destruct (H 2) as (v & Hv & Hs); [simpl; lia | reflexivity |].
    injection Hv as <-. exact Hs.
Defined.

(** C10.  The line read by the selector is stripped of surrounding blanks
    before anything else, and the cancel input is compared after
    lower-casing: for a non-empty version list and after any rejected lines,
    a line whose stripped, lower-cased form is [q] (that is, whose stripped
    form is [q] or [Q]) makes [select_version] return no selection, and
    every line has the same effect as its stripped form.  The lines [Q] and
    [  q  ] are cancel inputs. *)
Theorem C10_cancel_input (component : string) (m : manager) (w : world)
    (vs : list json) (pre : list string) (text : string)
    (rest : list input_event) :
  offers m component vs ->
  vs <> [] ->
  forallb (rejected (Z.of_nat (length vs))) pre = true ->
  let n := Z.of_nat (length vs) in
  let on_input t := set_stdin ((Line <$> pre) ++ Line t :: rest) w in
  (lower (strip text) = "q" <-> strip text = "q" \/ strip text = "Q")
  /\ (lower (strip text) = "q" ->
      select_version component (m, on_input text)
      = (Ret None,
         (m, after_session w rest
               (MAvailable component :: numbered 1 vs
                  ++ reprompts component n pre
                  ++ [MAskVersion component n]))))
  /\ select_version component (m, on_input text)
     = select_version component (m, on_input (strip text))
  /\ lower (strip "Q") = "q"
  /\ lower (strip "  q  ") = "q".
Proof.
  intros Hoff Hne Hpre n on_input.
  split; [apply lower_is_q |]. split; [| split; [| by vm_compute]].
  - intros Hq. rewrite (select_version_offered _ _ _ _ Hoff Hne).
    unfold on_input; simpl stdin.
    rewrite (select_loop_rejected _ _ _ _ _ Hpre).
    by rewrite select_loop_cancel.
  - rewrite !(select_version_offered _ _ _ _ Hoff Hne).
    unfold on_input; simpl stdin.
    rewrite !(select_loop_rejected _ _ _ _ _ Hpre).
    cbn [select_loop]. by rewrite strip_idem.
Qed.

Lemma C10_cancel_input_witness :
  select_version "qemu" (sample_manager, sample_world [Line "  Q  "; Line "1"])
  = (Ret None,
     (sample_manager,
      after_session (sample_world []) [Line "1"]
        [MAvailable "qemu"; MItem 1 (JStr "a"); MItem 2 (JStr "b");
         MItem 3 (JStr "c"); MAskVersion "qemu" 3])).
Proof.
  destruct (C10_cancel_input "qemu" sample_manager (sample_world [])
              [JStr "a"; JStr "b"; JStr "c"] [] "  Q  " [Line "1"])
    as (_ & H & _).
  - by eexists _, _.
  - done.
  - done.
  - apply H. by vm_compute.
Defined.

End SelectorClaims.

Module RendererClaims.
Import PyStr Json GNS3Manager Spec Sample.
Import PyStrFacts SelectFacts MethodFacts ReplaceFacts.

(** C2 (amended).  [generate_compose_file] replaces the two tokens
    [${QEMU_VERSION}] and [${GNS3_SERVER_VERSION}], each by the configured
    version or its fallback, and leaves any other placeholder [${name}]
    (a name without dollar sign or closing brace) verbatim at its place,
    without error: the text before it and the text after it are rendered
    on their own.  The template [X=${A} Y=${B}] is rendered to itself,
    whatever the two versions are, and [X=${QEMU_VERSION} Y=${B}] with the
    QEMU version [1] is rendered to [X=1 Y=${B}]. *)
Theorem C2_other_placeholders (m : manager) (w : world)
    (ds : list (string * json)) (template qemu gns3 : string) :
  has_defaults m ds ->
  files w !! template_file m = Some template ->
  version_or "4.2.1" "qemu_version" ds = JStr qemu ->
  version_or "2.2.40" "gns3_server_version" ds = JStr gns3 ->
  let writes text :=
    generate_compose_file (m, w)
    = (Ret true, (m, after_render m w text qemu gns3)) in
  (forall pre name post,
     template = pre +:+ placeholder name +:+ post ->
     other_name name = true ->
     writes (rendered pre qemu gns3 +:+ placeholder name
               +:+ rendered post qemu gns3))
  /\ (template = "X=${A} Y=${B}" -> writes "X=${A} Y=${B}")
  /\ (template = "X=${QEMU_VERSION} Y=${B}" -> qemu = "1" ->
      writes "X=1 Y=${B}").
Proof.
  intros Hd Ht Hq Hg writes. unfold writes.
  rewrite (generate_compose_file_renders m w ds _ qemu gns3 Hd Ht Hq Hg).
  split; [| split].
  - intros pre name post -> Hn. by rewrite rendered_around_placeholder.
  - by intros ->.
  - by intros -> ->.
Qed.

Lemma C2_other_placeholders_witness :
  generate_compose_file
    (installation [("qemu_version", JStr "1")] "X=${QEMU_VERSION} Y=${B}")
  = (Ret true,
     (installed_manager [("qemu_version", JStr "1")],
      after_render (installed_manager [("qemu_version", JStr "1")])
        (installed_world [("qemu_version", JStr "1")]
           "X=${QEMU_VERSION} Y=${B}")
        "X=1 Y=${B}" "1" "2.2.40")).
Proof.
  destruct (C2_other_placeholders
              (installed_manager [("qemu_version", JStr "1")])
              (installed_world [("qemu_version", JStr "1")]
                 "X=${QEMU_VERSION} Y=${B}")
              [("qemu_version", JStr "1")]
              "X=${QEMU_VERSION} Y=${B}" "1" "2.2.40") as (H & _ & _).
  - reflexivity.
  - reflexivity.
  - reflexivity.
  - reflexivity.
  - apply (H "X=${QEMU_VERSION} Y=" "B" ""); reflexivity.
Defined.

Lemma C2_counterexample :
  files (generate_compose_file
           (installation [("A", JStr "1")] "X=${A} Y=${B}")).2.2
    !! "docker-compose.yml" = Some "X=${A} Y=${B}"
  /\ files (generate_compose_file
              (installation [("A", JStr "1")] "X=${A} Y=${B}")).2.2
       !! "docker-compose.yml" <> Some "X=1 Y=${B}".
Proof.
  assert (files (generate_compose_file
                   (installation [("A", JStr "1")] "X=${A} Y=${B}")).2.2
            !! "docker-compose.yml" = Some "X=${A} Y=${B}") as H
    by (by vm_compute).
  split; [exact H |]. rewrite H. discriminate.
Qed.

(** C3 (amended).  [generate_compose_file] makes two passes of literal
    replacement: every [${QEMU_VERSION}] of the template becomes the QEMU
    value, then every [${GNS3_SERVER_VERSION}] of the text so obtained
    becomes the server value.  When the QEMU value is inert (not empty, no
    dollar sign, and a first character that does not occur in
    [{GNS3_SERVER_VERSION}]) the text written is the simultaneous
    substitution of both tokens in the template. *)
Theorem C3_two_passes (m : manager) (w : world)
    (ds : list (string * json)) (template qemu gns3 : string) :
  has_defaults m ds ->
  files w !! template_file m = Some template ->
  version_or "4.2.1" "qemu_version" ds = JStr qemu ->
  version_or "2.2.40" "gns3_server_version" ds = JStr gns3 ->
  generate_compose_file (m, w)
  = (Ret true,
     (m, after_render m w
           (replace (replace template "${QEMU_VERSION}" qemu)
              "${GNS3_SERVER_VERSION}" gns3)
           qemu gns3))
  /\ (inert qemu = true ->
      generate_compose_file (m, w)
      = (Ret true,
         (m, after_render m w
               (substitute_simultaneously template qemu gns3) qemu gns3))).
Proof.
  intros Hd Ht Hq Hg.
  rewrite (generate_compose_file_renders m w ds _ qemu gns3 Hd Ht Hq Hg).
  split; [done |]. intros Hi. by rewrite rendered_simultaneous.
Qed.

Lemma C3_two_passes_witness :
  generate_compose_file
    (installation [("qemu_version", JStr "4.3.0")]
       "q=${QEMU_VERSION} g=${GNS3_SERVER_VERSION}")
  = (Ret true,
     (installed_manager [("qemu_version", JStr "4.3.0")],
      after_render (installed_manager [("qemu_version", JStr "4.3.0")])
        (installed_world [("qemu_version", JStr "4.3.0")]
           "q=${QEMU_VERSION} g=${GNS3_SERVER_VERSION}")
        (substitute_simultaneously
           "q=${QEMU_VERSION} g=${GNS3_SERVER_VERSION}" "4.3.0" "2.2.40")
        "4.3.0" "2.2.40")).
Proof.
  destruct (C3_two_passes
              (installed_manager [("qemu_version", JStr "4.3.0")])
              (installed_world [("qemu_version", JStr "4.3.0")]
                 "q=${QEMU_VERSION} g=${GNS3_SERVER_VERSION}")
              [("qemu_version", JStr "4.3.0")]
              "q=${QEMU_VERSION} g=${GNS3_SERVER_VERSION}"
              "4.3.0" "2.2.40") as [_ H].
  - reflexivity.
  - reflexivity.
  - reflexivity.
  - reflexivity.
  - apply H. reflexivity.
Defined.

Lemma C3_counterexample :
  files (generate_compose_file
           (installation
              [("qemu_version", JStr "${GNS3_SERVER_VERSION}");
               ("gns3_server_version", JStr "2.2.40")]
              "${QEMU_VERSION}")).2.2
    !! "docker-compose.yml" = Some "2.2.40"
  /\ substitute_simultaneously "${QEMU_VERSION}"
       "${GNS3_SERVER_VERSION}" "2.2.40" = "${GNS3_SERVER_VERSION}"
  /\ files (generate_compose_file
              (installation
                 [("qemu_version", JStr "${GNS3_SERVER_VERSION}");
                  ("gns3_server_version", JStr "2.2.40")]
                 "${QEMU_VERSION}")).2.2
       !! "docker-compose.yml"
     <> Some (substitute_simultaneously "${QEMU_VERSION}"
                "${GNS3_SERVER_VERSION}" "2.2.40").
Proof.
  assert (files (generate_compose_file
                   (installation
                      [("qemu_version", JStr "${GNS3_SERVER_VERSION}");
                       ("gns3_server_version", JStr "2.2.40")]
                      "${QEMU_VERSION}")).2.2
            !! "docker-compose.yml" = Some "2.2.40") as H
    by (by vm_compute).
  split; [exact H |]. split; [reflexivity |]. rewrite H. discriminate.
Qed.

(** C5.  When the template file does not exist, [generate_compose_file]
    writes nothing: the object and all files, the output file among them,
    are what they were, whatever the outcome.  On a configuration whose
    defaults are a mapping it returns [False] without raising, after the
    message that the template was not found. *)
Theorem C5_missing_template (m : manager) (w : world) :
  files w !! template_file m = None ->
  (generate_compose_file (m, w)).2.1 = m
  /\ files (generate_compose_file (m, w)).2.2 = files w
  /\ forall ds, has_defaults m ds ->
       generate_compose_file (m, w)
       = (Ret false,
          (m, after_session w (stdin w) [MTemplateNotFound (template_file m)])).
Proof.
  intros Ht. split; [| split].
  - unfold generate_compose_file, get_defaults. run_M.
    repeat (match goal with
            | |- context [match py_get ?a ?b ?c with _ => _ end] =>
                destruct (py_get a b c); simpl; try done
            end).
    by rewrite Ht.
  - unfold generate_compose_file, get_defaults. run_M.
    repeat (match goal with
            | |- context [match py_get ?a ?b ?c with _ => _ end] =>
                destruct (py_get a b c); simpl; try done
            end).
    by rewrite Ht.
  - intros ds Hd. unfold generate_compose_file.
    unfold mbind at 1, M_bind at 1, bind at 1.
    rewrite (has_defaults_get m ds w Hd).
    rewrite !py_get_version. run_M. by rewrite Ht.
Qed.

Lemma C5_missing_template_witness :
  generate_compose_file
    (sample_manager,
     World {[ "docker-compose.yml" := "image: old" ]} [] []
       (fun _ => Exited 0) [])
  = (Ret false,
     (sample_manager,
      World {[ "docker-compose.yml" := "image: old" ]} []
        [MTemplateNotFound "docker-compose.template.yml"]
        (fun _ => Exited 0) [])).
Proof.
  destruct (C5_missing_template sample_manager
              (World {[ "docker-compose.yml" := "image: old" ]} [] []
                 (fun _ => Exited 0) [])) as (_ & _ & H).
  - reflexivity.
  - apply (H [("gns3_server_version", JStr "2.2.40");
              ("qemu_version", JStr "4.2.1")]).
    reflexivity.
Defined.

(** C6.  With the template in place: when the defaults mapping has no
    [qemu_version] entry, the text written is the template with
    [${QEMU_VERSION}] replaced by [4.2.1]; when it has no
    [gns3_server_version] entry, [${GNS3_SERVER_VERSION}] is replaced by
    [2.2.40].  In both cases the call returns [True]: a missing entry is
    not an error. *)
Theorem C6_fallback_versions (m : manager) (w : world)
    (ds : list (string * json)) (template : string) :
  has_defaults m ds ->
  files w !! template_file m = Some template ->
  (dict_get "qemu_version" ds = None ->
   forall gns3,
     version_or "2.2.40" "gns3_server_version" ds = JStr gns3 ->
     generate_compose_file (m, w)
     = (Ret true,
        (m, after_render m w
              (replace (replace template "${QEMU_VERSION}" "4.2.1")
                 "${GNS3_SERVER_VERSION}" gns3)
              "4.2.1" gns3)))
  /\ (dict_get "gns3_server_version" ds = None ->
      forall qemu,
        version_or "4.2.1" "qemu_version" ds = JStr qemu ->
        generate_compose_file (m, w)
        = (Ret true,
           (m, after_render m w
                 (replace (replace template "${QEMU_VERSION}" qemu)
                    "${GNS3_SERVER_VERSION}" "2.2.40")
                 qemu "2.2.40"))).
Proof.
  intros Hd Ht. split.
  - intros Hq gns3 Hg.
    apply (generate_compose_file_renders m w ds); try done.
    unfold version_or. by rewrite Hq.
  - intros Hg qemu Hq.
    apply (generate_compose_file_renders m w ds); try done.
    unfold version_or. by rewrite Hg.
Qed.

Lemma C6_fallback_versions_witness :
  generate_compose_file
    (installation [] "q=${QEMU_VERSION} g=${GNS3_SERVER_VERSION}")
  = (Ret true,
     (installed_manager [],
      after_render (installed_manager [])
        (installed_world [] "q=${QEMU_VERSION} g=${GNS3_SERVER_VERSION}")
        "q=4.2.1 g=2.2.40" "4.2.1" "2.2.40")).
Proof.
  destruct (C6_fallback_versions (installed_manager [])
              (installed_world []
                 "q=${QEMU_VERSION} g=${GNS3_SERVER_VERSION}")
              [] "q=${QEMU_VERSION} g=${GNS3_SERVER_VERSION}") as [H _].
  - reflexivity.
  - reflexivity.
  - apply (H eq_refl "2.2.40"). reflexivity.
Defined.

End RendererClaims.

Module WorkflowClaims.
Import PyStr Json GNS3Manager Spec Sample.
Import PyStrFacts SelectFacts MethodFacts ReplaceFacts.

(** C8.  In a turn of the menu loop where the operator chooses 1 or 2 and
    the selection that follows returns no selection (cancel input,
    interruption, or nothing to choose from), neither [select_version] nor
    the turn as a whole changes the object or any file: the defaults in
    memory and the persisted configuration are what they were. *)
Theorem C8_cancelled_selection (m : manager) (w : world) (text : string)
    (rest : list input_event) (component : string) :
  stdin w = Line text :: rest ->
  (strip text = "1" /\ component = "gns3_server")
  \/ (strip text = "2" /\ component = "qemu") ->
  (select_version component (m, set_stdin rest w)).1 = Ret None ->
  (select_version component (m, set_stdin rest w)).2.1 = m
  /\ files (select_version component (m, set_stdin rest w)).2.2 = files w
  /\ (run_iteration (m, w)).2.1 = m
  /\ files (run_iteration (m, w)).2.2 = files w.
Proof.
  intros Hin Hchoice Hsel.
  destruct (select_version_keeps component (m, set_stdin rest w)) as [H1 H2].
  destruct (run_iteration_no_selection m w text rest component Hin Hchoice Hsel)
    as [H3 H4].
  done.
Qed.

Lemma C8_cancelled_selection_witness :
  (run_iteration
     (sample_manager, sample_world [Line "2"; Line "7"; Interrupt])).2.1
  = sample_manager
  /\ files (run_iteration
              (sample_manager,
               sample_world [Line "2"; Line "7"; Interrupt])).2.2
     = sample_files.
Proof.
  destruct (C8_cancelled_selection sample_manager
              (sample_world [Line "2"; Line "7"; Interrupt])
              "2" [Line "7"; Interrupt] "qemu") as (_ & _ & H3 & H4).
  - reflexivity.
  - right. split; reflexivity.
  - reflexivity.
  - split; [exact H3 | exact H4].
Defined.

(** C9.  [build_image] takes the emulator version from [qemu_version] and
    the server version from [gns3_server_version], each with its fallback,
    and launches exactly one command: [docker build] with the two versions
    as the build arguments [QEMU_VERSION] and [GNS3_SERVER_VERSION], tagged
    [gns3-qemu:<emulator version>-server-<server version>].  When the
    command ends well the call returns [True] after announcing the tag. *)
Theorem C9_build_command (m : manager) (w : world)
    (ds : list (string * json)) (qemu gns3 : string) :
  has_defaults m ds ->
  version_or "4.2.1" "qemu_version" ds = JStr qemu ->
  version_or "2.2.40" "gns3_server_version" ds = JStr gns3 ->
  let tag := "gns3-qemu:" +:+ qemu +:+ "-server-" +:+ gns3 in
  let cmd := ["docker"; "build";
              "--build-arg"; "QEMU_VERSION=" +:+ qemu;
              "--build-arg"; "GNS3_SERVER_VERSION=" +:+ gns3;
              "-t"; tag;
              "."] in
  launched (build_image (m, w)).2.2 = launched w ++ [cmd]
  /\ (launch w cmd = Exited 0 ->
      build_image (m, w)
      = (Ret true,
         (m, World (files w) (stdin w)
               (stdout w ++ [MBuilding tag qemu gns3; MBuilt tag])
               (launch w) (launched w ++ [cmd])))).
Proof.
  intros Hd Hq Hg tag cmd.
  rewrite (build_image_runs m w ds qemu gns3 Hd Hq Hg).
  fold tag. fold cmd. split.
  - destruct (launch w cmd) as [status| |]; [| done | done].
    by destruct (negb (status =? 0)).
  - intros ->. cbn. unfold add_stdout, add_launched. cbn.
    by rewrite <- app_assoc.
Qed.

Lemma C9_build_command_witness :
  launched (build_image
              (installation [("qemu_version", JStr "4.3.0")] "")).2.2
  = [["docker"; "build";
      "--build-arg"; "QEMU_VERSION=4.3.0";
      "--build-arg"; "GNS3_SERVER_VERSION=2.2.40";
      "-t"; "gns3-qemu:4.3.0-server-2.2.40";
      "."]].
Proof.
  destruct (C9_build_command
              (installed_manager [("qemu_version", JStr "4.3.0")])
              (installed_world [("qemu_version", JStr "4.3.0")] "")
              [("qemu_version", JStr "4.3.0")] "4.3.0" "2.2.40") as [H _].
  - reflexivity.
  - reflexivity.
  - reflexivity.
  - exact H.
Defined.

End WorkflowClaims.

Module ConfigFacts.
Import PyStr Json GNS3Manager Spec Sample.
Import PyStrFacts MethodFacts JsonFacts.

(** [load_config] succeeds exactly on a file that decodes. *)
Lemma load_config_Ret m w doc :
  (load_config (m, w)).1 = Ret doc <->
  exists text, files w !! config_path m = Some text /\ loads text = Some doc.
Proof.
  unfold load_config. run_M.
  destruct (files w !! config_path m) as [text|] eqn:E; simpl;
    rewrite ?E; simpl.
  - destruct (loads text) as [d|] eqn:El; simpl.
    + split; [intros [= ->]; eauto |].
      intros (? & [= <-] & Hl). rewrite El in Hl. by injection Hl as ->.
    + split; [done |]. intros (? & [= <-] & Hl). by rewrite El in Hl.
  - split; [done | by intros (? & ? & ?)].
Qed.

Lemma load_config_stored m w doc :
  files w !! config_path m = Some (dumps doc) ->
  well_formed doc = true ->
  load_config (m, w) = (Ret doc, (m, w)).
Proof.
  intros E Hwf. unfold load_config. run_M.
  rewrite E. simpl. rewrite ?E. simpl.
  by rewrite (loads_dumps doc Hwf).
Qed.

Lemma save_config_writes m w :
  save_config (m, w)
  = (Ret tt, (m, set_files (<[config_path m := dumps (config m)]> (files w)) w)).
Proof. reflexivity. Qed.

Lemma store_default_defaults m ds key v :
  has_defaults m ds ->
  well_formed (config m) = true ->
  well_formed v = true ->
  exists cfg,
    store_default key v (config m) = Ret cfg
    /\ well_formed cfg = true
    /\ py_get cfg "defaults" (JObj []) = Ret (JObj (dict_set key v ds)).
Proof.
  unfold has_defaults. intros Hd Hwf Hv.
  destruct (config m) as [| | | | |ms]; try done.
  cbn [py_get] in Hd. cbn [store_default].
  assert (well_formed (JObj ds) = true) as Hds.
  { destruct (dict_get "defaults" ms) as [x|] eqn:E; cbn in Hd.
    - injection Hd as ->. apply well_formed_object in Hwf as [_ Hvals].
      by apply (dict_get_value "defaults" ms).
    - by injection Hd as <-. }
  destruct (dict_get "defaults" ms) as [x|] eqn:E; cbn in Hd.
  - injection Hd as ->. rewrite E.
    eexists. split; [reflexivity |]. split.
    + apply well_formed_dict_set; [| done].
      by apply well_formed_dict_set.
    + cbn [py_get]. by rewrite dict_get_set_same.
  - injection Hd as <-. rewrite dict_get_set_same.
    eexists. split; [reflexivity |]. split.
    + apply well_formed_dict_set; [by apply well_formed_dict_set |].
      by apply well_formed_dict_set.
    + cbn [py_get]. by rewrite dict_get_set_same.
Qed.

End ConfigFacts.

Module ConfigClaims.
Import PyStr Json GNS3Manager Spec Sample.
Import PyStrFacts MethodFacts JsonFacts ConfigFacts.

(** C7.  When [load_config] returns a document for the configuration
    file, keeping that document as the configuration and saving it again
    gives a file from which [load_config] returns the same document, and a
    further save of it leaves the file as it is. *)
Theorem C7_save_load_idempotent (m : manager) (w : world) (doc : json) :
  (load_config (m, w)).1 = Ret doc ->
  let saved := (save_config (set_config doc m, w)).2 in
  (save_config (set_config doc m, w)).1 = Ret tt
  /\ load_config saved = (Ret doc, saved)
  /\ save_config (set_config doc saved.1, saved.2) = (Ret tt, saved).
Proof.
  intros (text & Ht & Hl)%load_config_Ret saved.
  pose proof (loads_well_formed text doc Hl) as Hwf.
  subst saved. rewrite save_config_writes. cbn [fst snd].
  split; [done |]. split.
  - apply load_config_stored; [| done]. cbn. apply lookup_insert_eq.
  - rewrite save_config_writes. cbn. unfold set_files; cbn.
    by rewrite insert_insert_eq.
Qed.

Lemma C7_save_load_idempotent_witness :
  load_config (save_config (sample_manager, sample_world [])).2
  = (Ret sample_config, (save_config (sample_manager, sample_world [])).2).
Proof.
  destruct (C7_save_load_idempotent sample_manager (sample_world [])
              sample_config) as (_ & H & _).
  - by vm_compute.
  - exact H.
Defined.

(** C4.  On a configuration whose defaults are the mapping [ds] (empty
    when the field is missing), [update_default component version] returns
    normally; afterwards [get_defaults] yields [ds] with [version] stored
    under the key [<component>_version], the configuration file holds the
    dump of the configuration in memory, and [load_config] reads that same
    document back.  For [qemu] the key is [qemu_version]. *)
Theorem C4_set_default (m : manager) (w : world)
    (ds : list (string * json)) (component version : string) :
  has_defaults m ds ->
  well_formed (config m) = true ->
  let key := component +:+ "_version" in
  let st := (update_default component (JStr version) (m, w)).2 in
  (update_default component (JStr version) (m, w)).1 = Ret tt
  /\ get_defaults st = (Ret (JObj (dict_set key (JStr version) ds)), st)
  /\ dict_get key (dict_set key (JStr version) ds) = Some (JStr version)
  /\ files st.2 !! config_path m = Some (dumps (config st.1))
  /\ load_config st = (Ret (config st.1), st)
  /\ "qemu" +:+ "_version" = "qemu_version".
Proof.
  intros Hd Hwf key st.
  destruct (store_default_defaults m ds key (JStr version) Hd Hwf eq_refl)
    as (cfg & Hs & Hcfg & Hget).
  assert (update_default component (JStr version) (m, w)
          = (Ret tt,
             (set_config cfg m,
              add_stdout [MUpdated component (JStr version)]
                (set_files (<[config_path m := dumps cfg]> (files w)) w))))
    as Hup.
  { unfold update_default, save_config. run_M. fold key. by rewrite Hs. }
  subst st. rewrite Hup. cbn [fst snd].
  split; [done |]. split.
  { unfold get_defaults. run_M. by rewrite Hget. }
  split; [apply dict_get_set_same |]. split.
  { cbn. apply lookup_insert_eq. }
  split; [| done].
  apply load_config_stored; [| done]. cbn. apply lookup_insert_eq.
Qed.

Lemma C4_set_default_witness :
  get_defaults (update_default "qemu" (JStr "4.3.0")
                  (sample_manager, sample_world [])).2
  = (Ret (JObj [("gns3_server_version", JStr "2.2.40");
                ("qemu_version", JStr "4.3.0")]),
     (update_default "qemu" (JStr "4.3.0")
        (sample_manager, sample_world [])).2).
Proof.
  destruct (C4_set_default sample_manager (sample_world [])
              [("gns3_server_version", JStr "2.2.40");
               ("qemu_version", JStr "4.2.1")]
              "qemu" "4.3.0") as (_ & H & _).
  - reflexivity.
  - by vm_compute.
  - exact H.
Defined.

End ConfigClaims.
